(** * permit-python: the REST bindings of the Permit SDK

    A shallow embedding of the resource API classes
    ([permit/api/tenants.py], [permit/api/users.py],
    [permit/api/environments.py]), of two generated endpoint modules
    ([permit/openapi/api/opal_data/get_data_for_user.py],
    [permit/openapi/api/resources/create_resource.py]) and of
    [permit/config.py].

    Python objects that are shared and mutated (the configuration, the
    dictionaries a caller passes in) live in an explicit [World]; every
    endpoint is a computation in a state-and-exception monad over it.  The
    remote service is an oracle of the world, and every request that leaves
    the process is appended to a log. *)

From Stdlib Require Import ZArith QArith Ascii.
From stdpp Require Import base tactics option list strings functions gmap fin_maps pretty.

Local Open Scope string_scope.
Local Open Scope Z_scope.

(** ** Python values *)

(** The values that occur as dictionary entries, query parameters and path
    segments.  [PyObj] stands for any other object and carries what [str()]
    gives for it. *)
Inductive pyval : Type :=
  | PyNone
  | PyStr (s : string)
  | PyInt (n : Z)
  | PyObj (repr : string).

#[global] Instance pyval_eq_dec : EqDecision pyval.
Proof. solve_decision. Defined.

(** [str(v)], which is what [str.format] and f-strings insert. *)
Definition py_str (v : pyval) : string :=
  match v with
  | PyNone => "None"
  | PyStr s => s
  | PyInt n => pretty n
  | PyObj r => r
  end.

(** [str(o)] for an [Optional[str]]. *)
Definition py_str_opt (o : option string) : string :=
  match o with
  | Some s => s
  | None => "None"
  end.

(** A Python [dict] with string keys, by value. *)
Abbreviation dict := (gmap string pyval).

(** [d.pop(k, None)]: the value that was stored (or [None]) and the
    dictionary without the entry. *)
Definition dict_pop (k : string) (d : dict) : pyval * dict :=
  (default PyNone (d !! k), delete k d).

(** References to dictionary objects. *)
Abbreviation loc := nat.

(** ** permit/config.py *)

Module config.

Record LoggerConfig := {
  level : string;
  label : string;
  log_as_json : bool;
}.

Definition LoggerConfig_default : LoggerConfig :=
  {| level := "info"; label := "Permit"; log_as_json := false |}.

Record MultiTenancyConfig := {
  default_tenant : string;
  use_default_tenant_if_empty : bool;
}.

Definition MultiTenancyConfig_default : MultiTenancyConfig :=
  {| default_tenant := "default"; use_default_tenant_if_empty := true |}.

End config.

(** Modelled from the spec: the enum [ApiKeyLevel] of
    [permit/api/context.py], which is not among the sources.  The spec calls
    it "a required level enum"; the endpoints name the project and the
    environment level, the organization level completes the scopes of the
    management API. *)
Inductive ApiKeyLevel : Type :=
  | ORGANIZATION_LEVEL_API_KEY
  | PROJECT_LEVEL_API_KEY
  | ENVIRONMENT_LEVEL_API_KEY.

#[global] Instance ApiKeyLevel_eq_dec : EqDecision ApiKeyLevel.
Proof. solve_decision. Defined.

(** Modelled from the spec: the [api_context] object the endpoints read
    through [self.config.api_context] ([permit/api/context.py] is not among
    the sources).  It holds the "configured API-key level" the guard
    compares, and the [project] and [environment] attributes that
    [tenants.py] and [users.py] format into their paths. *)
Record ApiContext := {
  api_key_level : ApiKeyLevel;
  project : option string;
  environment : option string;
}.

(** [PermitConfig] of [permit/config.py], with the [api_context] attribute
    the API classes read from it. *)
Record PermitConfig := {
  token : string;
  pdp : string;
  api_url : string;
  log : config.LoggerConfig;
  multi_tenancy : config.MultiTenancyConfig;
  api_context : ApiContext;
}.

(** [PermitConfig(token=...)] with the defaults of the field declarations. *)
Definition PermitConfig_new (tok : string) (ctx : ApiContext) : PermitConfig :=
  {| token := tok;
     pdp := "http://localhost:7766";
     api_url := "https://api.permit.io";
     log := config.LoggerConfig_default;
     multi_tenancy := config.MultiTenancyConfig_default;
     api_context := ctx |}.

Definition set_api_context (ctx : ApiContext) (c : PermitConfig) : PermitConfig :=
  {| token := token c; pdp := pdp c; api_url := api_url c; log := log c;
     multi_tenancy := multi_tenancy c; api_context := ctx |}.

(** ** HTTP messages *)

Inductive Method : Type := GET | POST | PUT | PATCH | DELETE.

(** Request models of [permit/api/models] (not among the sources).  An
    instance is its field values; the attributes the endpoints read
    ([user.key], [assignment.user]) are fields of their own. *)
Record Model := { model_fields : dict }.

Record UserCreate := {
  UserCreate_key : string;
  UserCreate_fields : dict;
}.

(** [RoleAssignmentCreate] and [RoleAssignmentRemove]. *)
Record RoleAssignment := {
  RoleAssignment_user : string;
  RoleAssignment_fields : dict;
}.

(** [m.dict()] and [m.dict(exclude={"user"})]. *)
Definition Model_dict (m : Model) : dict := model_fields m.

Definition RoleAssignment_dict (a : RoleAssignment) : dict :=
  <["user" := PyStr (RoleAssignment_user a)]> (RoleAssignment_fields a).

Definition RoleAssignment_dict_exclude_user (a : RoleAssignment) : dict :=
  base.delete "user" (RoleAssignment_dict a).

(** What an endpoint hands over as [json=]: a dictionary (its contents when
    the request is sent) or a model instance. *)
Inductive Body : Type :=
  | JsonDict (d : dict)
  | JsonModel (m : Model)
  | JsonUserCreate (u : UserCreate).

(** The class a response is unmarshalled into ([model=]). *)
Inductive ModelType : Type :=
  | Cls (name : string)
  | ListOf (t : ModelType).

(** The response models of the generated endpoints. *)
Inductive OpenapiModel : Type :=
  | UserData
  | ResourceRead
  | HTTPValidationError.

(** A request of the resource API classes: what the endpoint passes to the
    [get]/[post]/[put]/[patch]/[delete] of its client.  [url] is the path
    on the API the client is configured for. *)
Record ApiRequest := {
  method : Method;
  url : string;
  params : option dict;
  json : option Body;
}.

(** The keyword arguments the generated endpoints build ([_get_kwargs]). *)
Record Kwargs := {
  kw_method : string;
  kw_url : string;
  kw_headers : gmap string string;
  kw_cookies : gmap string string;
  kw_timeout : Q;
  kw_json : option dict;
}.

(** A call of [httpx.request(verify=..., **kwargs)]. *)
Record HttpxRequest := {
  verify : bool;
  kwargs : Kwargs;
}.

Inductive Request : Type :=
  | ApiReq (r : ApiRequest)
  | HttpxReq (r : HttpxRequest).

(** [httpx.Response], as far as the endpoints read it. *)
Record Response := {
  status_code : Z;
  content : string;
  headers : list (string * string);
}.

(** ** Exceptions, the world and the monad *)

Inductive exn : Type :=
  | PermitContextError
  | PermitApiError
  | KeyError (msg : string)
  | ValidationError
  | JSONDecodeError.

Inductive Outcome (A : Type) : Type :=
  | Return (a : A)
  | Raise (e : exn).
Arguments Return {A} a.
Arguments Raise {A} e.

(** The state an endpoint runs in: the configuration object the API objects
    share, the dictionary objects of the caller, the remote service, and the
    requests issued so far (oldest first). *)
Record World := {
  w_config : PermitConfig;
  w_store : loc -> dict;
  w_remote : Request -> Response;
  w_sent : list Request;
}.

Definition M (A : Type) : Type := World -> Outcome A * World.

Definition ret {A} (a : A) : M A := fun w => (Return a, w).

Definition raise {A} (e : exn) : M A := fun w => (Raise e, w).

Definition bind {A B} (m : M A) (k : A -> M B) : M B :=
  fun w =>
    match m w with
    | (Return a, w') => k a w'
    | (Raise e, w') => (Raise e, w')
    end.

Notation "'let!' x ':=' m 'in' k" := (bind m (fun x => k))
  (at level 10, x pattern, m at level 100, k at level 200).

(** Lift a pure result that may be an exception. *)
Definition lift {A} (o : Outcome A) : M A := fun w => (o, w).

Definition get_config : M PermitConfig := fun w => (Return (w_config w), w).

Definition read_dict (l : loc) : M dict := fun w => (Return (w_store w l), w).

Definition write_dict (l : loc) (d : dict) : M unit :=
  fun w =>
    (Return tt,
     {| w_config := w_config w;
        w_store := <[l := d]> (w_store w);
        w_remote := w_remote w;
        w_sent := w_sent w |}).

(** Send one request and wait for its response. *)
Definition send (r : Request) : M Response :=
  fun w =>
    (Return (w_remote w r),
     {| w_config := w_config w;
        w_store := w_store w;
        w_remote := w_remote w;
        w_sent := w_sent w ++ [r] |}).

(** The requests a computation issues when run in [w]. *)
Definition issued {A} (m : M A) (w : World) : list Request :=
  drop (length (w_sent w)) (w_sent (m w).2).

Definition outcome {A} (m : M A) (w : World) : Outcome A := (m w).1.

(** ** Decoding of responses

    What the sources leave to httpx, to pydantic and to the transport of
    [permit/api/base.py]: decoding a response body as JSON
    ([response.json()]), validating a JSON document as an instance of a
    model class ([parse_obj]), the response handling of the resource
    API's client, which yields the instance of [model] or raises, and the
    validation of a dictionary as a [UserCreate] (the constructor on the
    entries of the dictionary: the instance or nothing). *)
Class Codec := {
  Json : Type;
  Parsed : Type;
  response_json : Response -> Outcome Json;
  parse_obj : OpenapiModel -> Json -> Outcome Parsed;
  unmarshal : option ModelType -> Response -> Outcome Parsed;
  UserCreate_validate : dict -> option UserCreate;
}.

(** ** permit/api/base.py *)

(** Modelled from the spec: [pagination_params] of [permit/api/base.py],
    which is not among the sources; "pagination is page/per_page query
    parameters". *)
Definition pagination_params (page per_page : Z) : dict :=
  <["page" := PyInt page]> {["per_page" := PyInt per_page]}.

(** Modelled from the spec: the guard [ensure_context] of
    [permit/api/base.py], which is not among the sources; it compares "a
    configured API-key level against a required level enum, short-circuiting
    with a context error on mismatch". *)
Definition ensure_context {A} (call_level : ApiKeyLevel) (func : M A) : M A :=
  let! cfg := get_config in
  if decide (api_key_level (api_context cfg) = call_level)
  then func
  else raise PermitContextError.

(** Modelled from the spec: the client [_build_http_client] returns and its
    verbs ([permit/api/base.py], not among the sources).  A client is "a
    REST path"; a verb issues "one HTTP request per call", awaits its
    response and unmarshals it. *)
Record SimpleHttpClient := { base_url : string }.

Definition _build_http_client (endpoint_url : string) : SimpleHttpClient :=
  {| base_url := endpoint_url |}.

Module SimpleHttpClient.
Section verbs.
Context `{Codec}.

Definition request (self : SimpleHttpClient) (meth : Method) (path : string)
    (model : option ModelType) (params : option dict) (json : option Body)
    : M Parsed :=
  let! response :=
    send (ApiReq {| method := meth; url := base_url self ++ path;
                    params := params; json := json |}) in
  lift (unmarshal model response).

Definition get self path model params := request self GET path model params None.
Definition post self path model json := request self POST path model None json.
Definition put self path model json := request self PUT path model None json.
Definition patch self path model json := request self PATCH path model None json.
Definition delete self path json := request self DELETE path None None json.

End verbs.
End SimpleHttpClient.

(** ** permit/api/tenants.py *)

Module TenantsApi.
Section methods.
Context `{Codec}.

(** The object holds the client built by [__init__]; [self.config] is the
    configuration of the world. *)
Record t := { __tenants : SimpleHttpClient }.

Definition __init__ : M t :=
  let! cfg := get_config in
  ret {| __tenants :=
           _build_http_client
             ("/v2/facts/" ++ py_str_opt (project (api_context cfg))
              ++ "/" ++ py_str_opt (environment (api_context cfg))
              ++ "/tenants") |}.

Definition list_wrapped (self : t) (page per_page : Z) : M Parsed :=
  SimpleHttpClient.get (__tenants self) ""
    (Some (ListOf (Cls "TenantRead"))) (Some (pagination_params page per_page)).

Definition list self page per_page :=
  ensure_context ENVIRONMENT_LEVEL_API_KEY (list_wrapped self page per_page).

Definition list_tenant_users_wrapped (self : t) (tenant_key : string)
    (page per_page : Z) : M Parsed :=
  SimpleHttpClient.get (__tenants self) ("/" ++ tenant_key ++ "/users")
    (Some (Cls "PaginatedResultUserRead"))
    (Some (pagination_params page per_page)).

Definition list_tenant_users self tenant_key page per_page :=
  ensure_context ENVIRONMENT_LEVEL_API_KEY
    (list_tenant_users_wrapped self tenant_key page per_page).

Definition get_wrapped (self : t) (tenant_key : string) : M Parsed :=
  SimpleHttpClient.get (__tenants self) ("/" ++ tenant_key)
    (Some (Cls "TenantRead")) None.

Definition get self tenant_key :=
  ensure_context ENVIRONMENT_LEVEL_API_KEY (get_wrapped self tenant_key).

Definition get_by_key_wrapped (self : t) (tenant_key : string) : M Parsed :=
  get self tenant_key.

Definition get_by_key self tenant_key :=
  ensure_context ENVIRONMENT_LEVEL_API_KEY (get_by_key_wrapped self tenant_key).

Definition get_by_id_wrapped (self : t) (tenant_id : string) : M Parsed :=
  get self tenant_id.

Definition get_by_id self tenant_id :=
  ensure_context ENVIRONMENT_LEVEL_API_KEY (get_by_id_wrapped self tenant_id).

Definition create_wrapped (self : t) (tenant_data : Model) : M Parsed :=
  SimpleHttpClient.post (__tenants self) "" (Some (Cls "TenantRead"))
    (Some (JsonDict (Model_dict tenant_data))).

Definition create self tenant_data :=
  ensure_context ENVIRONMENT_LEVEL_API_KEY (create_wrapped self tenant_data).

Definition update_wrapped (self : t) (tenant_key : string) (tenant_data : Model)
    : M Parsed :=
  SimpleHttpClient.patch (__tenants self) ("/" ++ tenant_key)
    (Some (Cls "TenantRead")) (Some (JsonDict (Model_dict tenant_data))).

Definition update self tenant_key tenant_data :=
  ensure_context ENVIRONMENT_LEVEL_API_KEY
    (update_wrapped self tenant_key tenant_data).

Definition delete_wrapped (self : t) (tenant_key : string) : M Parsed :=
  SimpleHttpClient.delete (__tenants self) ("/" ++ tenant_key) None.

Definition delete self tenant_key :=
  ensure_context ENVIRONMENT_LEVEL_API_KEY (delete_wrapped self tenant_key).

Definition delete_tenant_user_wrapped (self : t) (tenant_key user_key : string)
    : M Parsed :=
  SimpleHttpClient.delete (__tenants self)
    ("/" ++ tenant_key ++ "/users/" ++ user_key) None.

Definition delete_tenant_user self tenant_key user_key :=
  ensure_context ENVIRONMENT_LEVEL_API_KEY
    (delete_tenant_user_wrapped self tenant_key user_key).

End methods.
End TenantsApi.

(** ** permit/api/users.py *)

(** [validate_arguments], which [users.py] and [environments.py] put under
    the guard, checks the arguments against the annotations of the
    signature.  Where the annotation is one type, the type of the embedding
    stands for it; for the union of [UsersApi.sync] the validation is
    [validate_sync_arg] below.

    The argument of [UsersApi.sync]: [UserCreate | dict].  A dictionary is
    passed by reference. *)
Inductive sync_arg : Type :=
  | SyncModel (u : UserCreate)
  | SyncDict (l : loc).

Module UsersApi.
Section methods.
Context `{Codec}.

(** The properties build their client from the configuration at each
    access. *)
Definition __users : M SimpleHttpClient :=
  let! cfg := get_config in
  ret (_build_http_client
         ("/v2/facts/" ++ py_str_opt (project (api_context cfg))
          ++ "/" ++ py_str_opt (environment (api_context cfg))
          ++ "/users")).

Definition __role_assignments : M SimpleHttpClient :=
  let! cfg := get_config in
  ret (_build_http_client
         ("/v2/facts/" ++ py_str_opt (project (api_context cfg))
          ++ "/" ++ py_str_opt (environment (api_context cfg))
          ++ "/role_assignments")).

Definition list_wrapped (page per_page : Z) : M Parsed :=
  let! users := __users in
  SimpleHttpClient.get users "" (Some (Cls "PaginatedResultUserRead"))
    (Some (pagination_params page per_page)).

Definition list page per_page :=
  ensure_context ENVIRONMENT_LEVEL_API_KEY (list_wrapped page per_page).

Definition get_wrapped (user_key : string) : M Parsed :=
  let! users := __users in
  SimpleHttpClient.get users ("/" ++ user_key) (Some (Cls "UserRead")) None.

Definition get user_key :=
  ensure_context ENVIRONMENT_LEVEL_API_KEY (get_wrapped user_key).

Definition get_by_key_wrapped (user_key : string) : M Parsed := get user_key.

Definition get_by_key user_key :=
  ensure_context ENVIRONMENT_LEVEL_API_KEY (get_by_key_wrapped user_key).

Definition get_by_id_wrapped (user_id : string) : M Parsed := get user_id.

Definition get_by_id user_id :=
  ensure_context ENVIRONMENT_LEVEL_API_KEY (get_by_id_wrapped user_id).

Definition create_wrapped (user_data : UserCreate) : M Parsed :=
  let! users := __users in
  SimpleHttpClient.post users "" (Some (Cls "UserRead"))
    (Some (JsonUserCreate user_data)).

Definition create user_data :=
  ensure_context ENVIRONMENT_LEVEL_API_KEY (create_wrapped user_data).

Definition update_wrapped (user_key : string) (user_data : Model) : M Parsed :=
  let! users := __users in
  SimpleHttpClient.patch users ("/" ++ user_key) (Some (Cls "UserRead"))
    (Some (JsonModel user_data)).

Definition update user_key user_data :=
  ensure_context ENVIRONMENT_LEVEL_API_KEY (update_wrapped user_key user_data).

(** [validate_arguments] on [user: UserCreate | dict]: the members of the
    union are tried in the order they are written.  A dictionary that is
    valid as a [UserCreate] reaches the body as that instance; one that is
    not reaches it as the dictionary itself, the caller's object.
    [UserCreate.key] is a required string, so a dictionary without a
    ["key"], or with [None] there, is never valid. *)
Definition UserCreate_of_dict (d : dict) : option UserCreate :=
  if decide (default PyNone (d !! "key") = PyNone) then None
  else UserCreate_validate d.

Definition validate_sync_arg (user : sync_arg) : M sync_arg :=
  match user with
  | SyncModel u => ret (SyncModel u)
  | SyncDict l =>
      let! d := read_dict l in
      match UserCreate_of_dict d with
      | Some u => ret (SyncModel u)
      | None => ret (SyncDict l)
      end
  end.

(** The [if isinstance(user, dict)] of [sync]: the key that goes into the
    path.  For a dictionary the entry is popped from the caller's object
    before the test. *)
Definition sync_user_key (user : sync_arg) : M pyval :=
  match user with
  | SyncDict l =>
      let! d := read_dict l in
      let! _ := write_dict l (dict_pop "key" d).2 in
      let user_key := (dict_pop "key" d).1 in
      if decide (user_key = PyNone)
      then raise (KeyError "required 'key' in input dictionary")
      else ret user_key
  | SyncModel u => ret (PyStr (UserCreate_key u))
  end.

(** [json=user]: the object itself, as it is when the request is sent. *)
Definition sync_json (user : sync_arg) : M Body :=
  match user with
  | SyncDict l => let! d := read_dict l in ret (JsonDict d)
  | SyncModel u => ret (JsonUserCreate u)
  end.

(** The body of [sync], on the validated argument. *)
Definition sync_body (user : sync_arg) : M Parsed :=
  let! user_key := sync_user_key user in
  let! users := __users in
  let! body := sync_json user in
  SimpleHttpClient.put users ("/" ++ py_str user_key) (Some (Cls "UserRead"))
    (Some body).

Definition sync_wrapped (user : sync_arg) : M Parsed :=
  let! user := validate_sync_arg user in
  sync_body user.

Definition sync user :=
  ensure_context ENVIRONMENT_LEVEL_API_KEY (sync_wrapped user).

Definition delete_wrapped (user_key : string) : M Parsed :=
  let! users := __users in
  SimpleHttpClient.delete users ("/" ++ user_key) None.

Definition delete user_key :=
  ensure_context ENVIRONMENT_LEVEL_API_KEY (delete_wrapped user_key).

Definition assign_role_wrapped (assignment : RoleAssignment) : M Parsed :=
  let! users := __users in
  SimpleHttpClient.post users
    ("/" ++ RoleAssignment_user assignment ++ "/roles")
    (Some (Cls "RoleAssignmentRead"))
    (Some (JsonDict (RoleAssignment_dict_exclude_user assignment))).

Definition assign_role assignment :=
  ensure_context ENVIRONMENT_LEVEL_API_KEY (assign_role_wrapped assignment).

Definition unassign_role_wrapped (unassignment : RoleAssignment) : M Parsed :=
  let! users := __users in
  SimpleHttpClient.delete users
    ("/" ++ RoleAssignment_user unassignment ++ "/roles")
    (Some (JsonDict (RoleAssignment_dict_exclude_user unassignment))).

Definition unassign_role unassignment :=
  ensure_context ENVIRONMENT_LEVEL_API_KEY (unassign_role_wrapped unassignment).

Definition get_assigned_roles_wrapped (user : string) (tenant : option string)
    (page per_page : Z) : M Parsed :=
  let params := pagination_params page per_page in
  let params := <["user" := PyStr user]> params in
  let params :=
    match tenant with
    | Some tenant => <["tenant" := PyStr tenant]> params
    | None => params
    end in
  let! role_assignments := __role_assignments in
  SimpleHttpClient.get role_assignments ""
    (Some (ListOf (Cls "RoleAssignmentRead"))) (Some params).

Definition get_assigned_roles user tenant page per_page :=
  ensure_context ENVIRONMENT_LEVEL_API_KEY
    (get_assigned_roles_wrapped user tenant page per_page).

End methods.
End UsersApi.

(** ** permit/api/environments.py *)

Module EnvironmentsApi.
Section methods.
Context `{Codec}.

Record t := { __environments : SimpleHttpClient }.

Definition __init__ : M t :=
  ret {| __environments := _build_http_client "" |}.

Definition list_wrapped (self : t) (project_key : string) (page per_page : Z)
    : M Parsed :=
  SimpleHttpClient.get (__environments self)
    ("/v2/projects/" ++ project_key ++ "/envs")
    (Some (ListOf (Cls "EnvironmentRead")))
    (Some (pagination_params page per_page)).

Definition list self project_key page per_page :=
  ensure_context PROJECT_LEVEL_API_KEY
    (list_wrapped self project_key page per_page).

Definition get_wrapped (self : t) (project_key environment_key : string)
    : M Parsed :=
  SimpleHttpClient.get (__environments self)
    ("/v2/projects/" ++ project_key ++ "/envs/" ++ environment_key)
    (Some (Cls "EnvironmentRead")) None.

Definition get self project_key environment_key :=
  ensure_context PROJECT_LEVEL_API_KEY
    (get_wrapped self project_key environment_key).

Definition get_by_key_wrapped (self : t) (project_key environment_key : string)
    : M Parsed :=
  get self project_key environment_key.

Definition get_by_key self project_key environment_key :=
  ensure_context PROJECT_LEVEL_API_KEY
    (get_by_key_wrapped self project_key environment_key).

Definition get_by_id_wrapped (self : t) (project_id environment_id : string)
    : M Parsed :=
  get self project_id environment_id.

Definition get_by_id self project_id environment_id :=
  ensure_context PROJECT_LEVEL_API_KEY
    (get_by_id_wrapped self project_id environment_id).

Definition get_stats_wrapped (self : t) (project_key environment_key : string)
    : M Parsed :=
  SimpleHttpClient.get (__environments self)
    ("/v2/projects/" ++ project_key ++ "/envs/" ++ environment_key ++ "/stats")
    (Some (Cls "EnvironmentStats")) None.

Definition get_stats self project_key environment_key :=
  ensure_context PROJECT_LEVEL_API_KEY
    (get_stats_wrapped self project_key environment_key).

Definition get_api_key_wrapped (self : t) (project_key environment_key : string)
    : M Parsed :=
  SimpleHttpClient.get (__environments self)
    ("/v2/api-key/" ++ project_key ++ "/" ++ environment_key)
    (Some (Cls "APIKeyRead")) None.

Definition get_api_key self project_key environment_key :=
  ensure_context PROJECT_LEVEL_API_KEY
    (get_api_key_wrapped self project_key environment_key).

Definition create_wrapped (self : t) (project_key : string)
    (environment_data : Model) : M Parsed :=
  SimpleHttpClient.post (__environments self)
    ("/v2/projects/" ++ project_key ++ "/envs")
    (Some (Cls "EnvironmentRead")) (Some (JsonModel environment_data)).

Definition create self project_key environment_data :=
  ensure_context PROJECT_LEVEL_API_KEY
    (create_wrapped self project_key environment_data).

Definition update_wrapped (self : t) (project_key environment_key : string)
    (environment_data : Model) : M Parsed :=
  SimpleHttpClient.patch (__environments self)
    ("/v2/projects/" ++ project_key ++ "/envs/" ++ environment_key)
    (Some (Cls "EnvironmentRead")) (Some (JsonModel environment_data)).

Definition update self project_key environment_key environment_data :=
  ensure_context PROJECT_LEVEL_API_KEY
    (update_wrapped self project_key environment_key environment_data).

Definition copy_wrapped (self : t) (project_key environment_key : string)
    (copy_params : Model) : M Parsed :=
  SimpleHttpClient.post (__environments self)
    ("/v2/projects/" ++ project_key ++ "/envs/" ++ environment_key ++ "/copy")
    (Some (Cls "EnvironmentRead")) (Some (JsonModel copy_params)).

Definition copy self project_key environment_key copy_params :=
  ensure_context PROJECT_LEVEL_API_KEY
    (copy_wrapped self project_key environment_key copy_params).

Definition delete_wrapped (self : t) (project_key environment_key : string)
    : M Parsed :=
  SimpleHttpClient.delete (__environments self)
    ("/v2/projects/" ++ project_key ++ "/envs/" ++ environment_key) None.

Definition delete self project_key environment_key :=
  ensure_context PROJECT_LEVEL_API_KEY
    (delete_wrapped self project_key environment_key).

End methods.
End EnvironmentsApi.

(** ** permit/openapi *)

Module types.

(** [Response] of [permit/openapi/types.py]: the generated endpoints build
    it with these four keywords. *)
Record Response (T : Type) := {
  status_code : Z;
  content : string;
  headers : list (string * string);
  parsed : option T;
}.
Arguments status_code {T} r.
Arguments content {T} r.
Arguments headers {T} r.
Arguments parsed {T} r.

End types.

(** [Client] and [AuthenticatedClient] of [permit/openapi/client.py] (not
    among the sources), as the endpoints use them: an attribute
    [base_url], an attribute [verify_ssl], and what [get_headers()],
    [get_cookies()] and [get_timeout()] return. *)
Record Client := {
  client_base_url : string;
  verify_ssl : bool;
  get_headers : gmap string string;
  get_cookies : gmap string string;
  get_timeout : Q;
}.

(** [httpx.request] and [AsyncClient.request]: one request on the wire. *)
Definition httpx_request (verify : bool) (kwargs : Kwargs) : M Response :=
  send (HttpxReq {| verify := verify; kwargs := kwargs |}).

Definition AsyncClient_request (verify : bool) (kwargs : Kwargs) : M Response :=
  send (HttpxReq {| verify := verify; kwargs := kwargs |}).

(** Sequencing of results that may be exceptions. *)
Definition obind {A B} (o : Outcome A) (k : A -> Outcome B) : Outcome B :=
  match o with
  | Return a => k a
  | Raise e => Raise e
  end.

Module get_data_for_user.
Section endpoint.
Context `{Codec}.

Definition _get_kwargs (org_id proj_id env_id user_id : string) (client : Client)
    : Kwargs :=
  let url :=
    client_base_url client ++ "/v2/internal/opal_data/" ++ org_id ++ "/"
    ++ proj_id ++ "/" ++ env_id ++ "/users/" ++ user_id in
  let headers := get_headers client in
  let cookies := get_cookies client in
  {| kw_method := "get";
     kw_url := url;
     kw_headers := headers;
     kw_cookies := cookies;
     kw_timeout := get_timeout client;
     kw_json := None |}.

Definition _parse_response (response : Response) : Outcome (option Parsed) :=
  if decide (status_code response = 200) then
    obind (response_json response) (fun j =>
    obind (parse_obj UserData j) (fun response_200 =>
    Return (Some response_200)))
  else if decide (status_code response = 422) then
    obind (response_json response) (fun j =>
    obind (parse_obj HTTPValidationError j) (fun response_422 =>
    Return (Some response_422)))
  else Return None.

Definition _build_response (response : Response)
    : Outcome (types.Response Parsed) :=
  obind (_parse_response response) (fun parsed =>
  Return {| types.status_code := status_code response;
            types.content := content response;
            types.headers := headers response;
            types.parsed := parsed |}).

Definition sync_detailed (org_id proj_id env_id user_id : string)
    (client : Client) : M (types.Response Parsed) :=
  let kwargs := _get_kwargs org_id proj_id env_id user_id client in
  let! response := httpx_request (verify_ssl client) kwargs in
  lift (_build_response response).

Definition sync (org_id proj_id env_id user_id : string) (client : Client)
    : M (option Parsed) :=
  let! r := sync_detailed org_id proj_id env_id user_id client in
  ret (types.parsed r).

Definition asyncio_detailed (org_id proj_id env_id user_id : string)
    (client : Client) : M (types.Response Parsed) :=
  let kwargs := _get_kwargs org_id proj_id env_id user_id client in
  let! response := AsyncClient_request (verify_ssl client) kwargs in
  lift (_build_response response).

Definition asyncio (org_id proj_id env_id user_id : string) (client : Client)
    : M (option Parsed) :=
  let! r := asyncio_detailed org_id proj_id env_id user_id client in
  ret (types.parsed r).

End endpoint.
End get_data_for_user.

Module create_resource.
Section endpoint.
Context `{Codec}.

(** [permit_session] is [None] for [UNSET]. *)
Definition _get_kwargs (proj_id env_id : string) (client : Client)
    (json_body : Model) (permit_session : option string) : Kwargs :=
  let url :=
    client_base_url client ++ "/v2/schema/" ++ proj_id ++ "/" ++ env_id
    ++ "/resources" in
  let headers := get_headers client in
  let cookies := get_cookies client in
  let cookies :=
    match permit_session with
    | Some permit_session => <["permit_session" := permit_session]> cookies
    | None => cookies
    end in
  let json_json_body := Model_dict json_body in
  {| kw_method := "post";
     kw_url := url;
     kw_headers := headers;
     kw_cookies := cookies;
     kw_timeout := get_timeout client;
     kw_json := Some json_json_body |}.

Definition _parse_response (response : Response) : Outcome (option Parsed) :=
  if decide (status_code response = 200) then
    obind (response_json response) (fun j =>
    obind (parse_obj ResourceRead j) (fun response_200 =>
    Return (Some response_200)))
  else if decide (status_code response = 422) then
    obind (response_json response) (fun j =>
    obind (parse_obj HTTPValidationError j) (fun response_422 =>
    Return (Some response_422)))
  else Return None.

Definition _build_response (response : Response)
    : Outcome (types.Response Parsed) :=
  obind (_parse_response response) (fun parsed =>
  Return {| types.status_code := status_code response;
            types.content := content response;
            types.headers := headers response;
            types.parsed := parsed |}).

Definition sync_detailed (proj_id env_id : string) (client : Client)
    (json_body : Model) (permit_session : option string)
    : M (types.Response Parsed) :=
  let kwargs := _get_kwargs proj_id env_id client json_body permit_session in
  let! response := httpx_request (verify_ssl client) kwargs in
  lift (_build_response response).

Definition sync (proj_id env_id : string) (client : Client)
    (json_body : Model) (permit_session : option string) : M (option Parsed) :=
  let! r := sync_detailed proj_id env_id client json_body permit_session in
  ret (types.parsed r).

Definition asyncio_detailed (proj_id env_id : string) (client : Client)
    (json_body : Model) (permit_session : option string)
    : M (types.Response Parsed) :=
  let kwargs := _get_kwargs proj_id env_id client json_body permit_session in
  let! response := AsyncClient_request (verify_ssl client) kwargs in
  lift (_build_response response).

Definition asyncio (proj_id env_id : string) (client : Client)
    (json_body : Model) (permit_session : option string) : M (option Parsed) :=
  let! r := asyncio_detailed proj_id env_id client json_body permit_session in
  ret (types.parsed r).

End endpoint.
End create_resource.

(** ** Calls

    A call of a public endpoint method: the receiver and the arguments the
    caller gives.  [page] and [per_page] (and [tenant]) may be left out;
    [invoke] binds them to the defaults of the signature. *)

Inductive TenantsCall : Type :=
  | Tenants_list (page per_page : option Z)
  | Tenants_list_tenant_users (tenant_key : string) (page per_page : option Z)
  | Tenants_get (tenant_key : string)
  | Tenants_get_by_key (tenant_key : string)
  | Tenants_get_by_id (tenant_id : string)
  | Tenants_create (tenant_data : Model)
  | Tenants_update (tenant_key : string) (tenant_data : Model)
  | Tenants_delete (tenant_key : string)
  | Tenants_delete_tenant_user (tenant_key user_key : string).

Inductive UsersCall : Type :=
  | Users_list (page per_page : option Z)
  | Users_get (user_key : string)
  | Users_get_by_key (user_key : string)
  | Users_get_by_id (user_id : string)
  | Users_create (user_data : UserCreate)
  | Users_update (user_key : string) (user_data : Model)
  | Users_sync (user : sync_arg)
  | Users_delete (user_key : string)
  | Users_assign_role (assignment : RoleAssignment)
  | Users_unassign_role (unassignment : RoleAssignment)
  | Users_get_assigned_roles (user : string) (tenant : option string)
      (page per_page : option Z).

Inductive EnvironmentsCall : Type :=
  | Environments_list (project_key : string) (page per_page : option Z)
  | Environments_get (project_key environment_key : string)
  | Environments_get_by_key (project_key environment_key : string)
  | Environments_get_by_id (project_id environment_id : string)
  | Environments_get_stats (project_key environment_key : string)
  | Environments_get_api_key (project_key environment_key : string)
  | Environments_create (project_key : string) (environment_data : Model)
  | Environments_update (project_key environment_key : string)
      (environment_data : Model)
  | Environments_copy (project_key environment_key : string)
      (copy_params : Model)
  | Environments_delete (project_key environment_key : string).

Inductive Call : Type :=
  | OnTenants (self : TenantsApi.t) (c : TenantsCall)
  | OnUsers (c : UsersCall)
  | OnEnvironments (self : EnvironmentsApi.t) (c : EnvironmentsCall).

(** [page: int = 1] and [per_page: int = 100]. *)
Definition page_arg (page : option Z) : Z := default 1 page.
Definition per_page_arg (per_page : option Z) : Z := default 100 per_page.

Section calls.
Context `{Codec}.

Definition invoke (c : Call) : M Parsed :=
  match c with
  | OnTenants self c =>
      match c with
      | Tenants_list p pp => TenantsApi.list self (page_arg p) (per_page_arg pp)
      | Tenants_list_tenant_users k p pp =>
          TenantsApi.list_tenant_users self k (page_arg p) (per_page_arg pp)
      | Tenants_get k => TenantsApi.get self k
      | Tenants_get_by_key k => TenantsApi.get_by_key self k
      | Tenants_get_by_id k => TenantsApi.get_by_id self k
      | Tenants_create d => TenantsApi.create self d
      | Tenants_update k d => TenantsApi.update self k d
      | Tenants_delete k => TenantsApi.delete self k
      | Tenants_delete_tenant_user k u => TenantsApi.delete_tenant_user self k u
      end
  | OnUsers c =>
      match c with
      | Users_list p pp => UsersApi.list (page_arg p) (per_page_arg pp)
      | Users_get k => UsersApi.get k
      | Users_get_by_key k => UsersApi.get_by_key k
      | Users_get_by_id k => UsersApi.get_by_id k
      | Users_create d => UsersApi.create d
      | Users_update k d => UsersApi.update k d
      | Users_sync u => UsersApi.sync u
      | Users_delete k => UsersApi.delete k
      | Users_assign_role a => UsersApi.assign_role a
      | Users_unassign_role a => UsersApi.unassign_role a
      | Users_get_assigned_roles u t p pp =>
          UsersApi.get_assigned_roles u t (page_arg p) (per_page_arg pp)
      end
  | OnEnvironments self c =>
      match c with
      | Environments_list k p pp =>
          EnvironmentsApi.list self k (page_arg p) (per_page_arg pp)
      | Environments_get k e => EnvironmentsApi.get self k e
      | Environments_get_by_key k e => EnvironmentsApi.get_by_key self k e
      | Environments_get_by_id k e => EnvironmentsApi.get_by_id self k e
      | Environments_get_stats k e => EnvironmentsApi.get_stats self k e
      | Environments_get_api_key k e => EnvironmentsApi.get_api_key self k e
      | Environments_create k d => EnvironmentsApi.create self k d
      | Environments_update k e d => EnvironmentsApi.update self k e d
      | Environments_copy k e d => EnvironmentsApi.copy self k e d
      | Environments_delete k e => EnvironmentsApi.delete self k e
      end
  end.

(** The method under its [ensure_context] decorator. *)
Definition wrapped (c : Call) : M Parsed :=
  match c with
  | OnTenants self c =>
      match c with
      | Tenants_list p pp =>
          TenantsApi.list_wrapped self (page_arg p) (per_page_arg pp)
      | Tenants_list_tenant_users k p pp =>
          TenantsApi.list_tenant_users_wrapped self k (page_arg p) (per_page_arg pp)
      | Tenants_get k => TenantsApi.get_wrapped self k
      | Tenants_get_by_key k => TenantsApi.get_by_key_wrapped self k
      | Tenants_get_by_id k => TenantsApi.get_by_id_wrapped self k
      | Tenants_create d => TenantsApi.create_wrapped self d
      | Tenants_update k d => TenantsApi.update_wrapped self k d
      | Tenants_delete k => TenantsApi.delete_wrapped self k
      | Tenants_delete_tenant_user k u =>
          TenantsApi.delete_tenant_user_wrapped self k u
      end
  | OnUsers c =>
      match c with
      | Users_list p pp => UsersApi.list_wrapped (page_arg p) (per_page_arg pp)
      | Users_get k => UsersApi.get_wrapped k
      | Users_get_by_key k => UsersApi.get_by_key_wrapped k
      | Users_get_by_id k => UsersApi.get_by_id_wrapped k
      | Users_create d => UsersApi.create_wrapped d
      | Users_update k d => UsersApi.update_wrapped k d
      | Users_sync u => UsersApi.sync_wrapped u
      | Users_delete k => UsersApi.delete_wrapped k
      | Users_assign_role a => UsersApi.assign_role_wrapped a
      | Users_unassign_role a => UsersApi.unassign_role_wrapped a
      | Users_get_assigned_roles u t p pp =>
          UsersApi.get_assigned_roles_wrapped u t (page_arg p) (per_page_arg pp)
      end
  | OnEnvironments self c =>
      match c with
      | Environments_list k p pp =>
          EnvironmentsApi.list_wrapped self k (page_arg p) (per_page_arg pp)
      | Environments_get k e => EnvironmentsApi.get_wrapped self k e
      | Environments_get_by_key k e => EnvironmentsApi.get_by_key_wrapped self k e
      | Environments_get_by_id k e => EnvironmentsApi.get_by_id_wrapped self k e
      | Environments_get_stats k e => EnvironmentsApi.get_stats_wrapped self k e
      | Environments_get_api_key k e =>
          EnvironmentsApi.get_api_key_wrapped self k e
      | Environments_create k d => EnvironmentsApi.create_wrapped self k d
      | Environments_update k e d => EnvironmentsApi.update_wrapped self k e d
      | Environments_copy k e d => EnvironmentsApi.copy_wrapped self k e d
      | Environments_delete k e => EnvironmentsApi.delete_wrapped self k e
      end
  end.

End calls.

(** The level each class names in its decorators. *)
Definition call_level (c : Call) : ApiKeyLevel :=
  match c with
  | OnTenants _ _ => ENVIRONMENT_LEVEL_API_KEY
  | OnUsers _ => ENVIRONMENT_LEVEL_API_KEY
  | OnEnvironments _ _ => PROJECT_LEVEL_API_KEY
  end.

(** The level the configuration of a world holds. *)
Definition configured_level (w : World) : ApiKeyLevel :=
  api_key_level (api_context (w_config w)).

(** The calls of the generated endpoint functions. *)
Inductive OpenapiCall : Type :=
  | GetDataForUser_sync_detailed (org_id proj_id env_id user_id : string)
      (client : Client)
  | GetDataForUser_sync (org_id proj_id env_id user_id : string)
      (client : Client)
  | GetDataForUser_asyncio_detailed (org_id proj_id env_id user_id : string)
      (client : Client)
  | GetDataForUser_asyncio (org_id proj_id env_id user_id : string)
      (client : Client)
  | CreateResource_sync_detailed (proj_id env_id : string) (client : Client)
      (json_body : Model) (permit_session : option string)
  | CreateResource_sync (proj_id env_id : string) (client : Client)
      (json_body : Model) (permit_session : option string)
  | CreateResource_asyncio_detailed (proj_id env_id : string) (client : Client)
      (json_body : Model) (permit_session : option string)
  | CreateResource_asyncio (proj_id env_id : string) (client : Client)
      (json_body : Model) (permit_session : option string).

(** What a generated endpoint function returns: the detailed response or
    its [parsed] attribute alone. *)
Inductive OpenapiResult (T : Type) : Type :=
  | Detailed (r : types.Response T)
  | Plain (p : option T).
Arguments Detailed {T} r.
Arguments Plain {T} p.

Definition fmap_M {A B} (f : A -> B) (m : M A) : M B :=
  let! a := m in ret (f a).

Section openapi_calls.
Context `{Codec}.

Definition invoke_openapi (c : OpenapiCall) : M (OpenapiResult Parsed) :=
  match c with
  | GetDataForUser_sync_detailed o p e u cl =>
      fmap_M Detailed (get_data_for_user.sync_detailed o p e u cl)
  | GetDataForUser_sync o p e u cl =>
      fmap_M Plain (get_data_for_user.sync o p e u cl)
  | GetDataForUser_asyncio_detailed o p e u cl =>
      fmap_M Detailed (get_data_for_user.asyncio_detailed o p e u cl)
  | GetDataForUser_asyncio o p e u cl =>
      fmap_M Plain (get_data_for_user.asyncio o p e u cl)
  | CreateResource_sync_detailed p e cl b s =>
      fmap_M Detailed (create_resource.sync_detailed p e cl b s)
  | CreateResource_sync p e cl b s =>
      fmap_M Plain (create_resource.sync p e cl b s)
  | CreateResource_asyncio_detailed p e cl b s =>
      fmap_M Detailed (create_resource.asyncio_detailed p e cl b s)
  | CreateResource_asyncio p e cl b s =>
      fmap_M Plain (create_resource.asyncio p e cl b s)
  end.

End openapi_calls.

(** ** Sample instances *)

(** A validation of user dictionaries: the key is a string, and the email,
    when there is one, is a string too. *)
Definition sample_validate (d : dict) : option UserCreate :=
  match d !! "key", d !! "email" with
  | Some (PyStr k), (None | Some (PyStr _)) =>
      Some {| UserCreate_key := k; UserCreate_fields := base.delete "key" d |}
  | _, _ => None
  end.

(** A codec that hands the response body through, and raises on an error
    status. *)
Definition echo_codec : Codec :=
  {| Json := string;
     Parsed := string;
     response_json := fun r => Return (content r);
     parse_obj := fun _ j => Return j;
     unmarshal := fun _ r =>
       if decide (status_code r < 400) then Return (content r)
       else Raise PermitApiError;
     UserCreate_validate := sample_validate |}.

Definition env_context : ApiContext :=
  {| api_key_level := ENVIRONMENT_LEVEL_API_KEY;
     project := Some "proj";
     environment := Some "dev" |}.

Definition project_context : ApiContext :=
  {| api_key_level := PROJECT_LEVEL_API_KEY;
     project := Some "proj";
     environment := None |}.

Definition ok_remote (r : Request) : Response :=
  {| status_code := 200; content := "{}"; headers := [] |}.

Definition sample_world (ctx : ApiContext) : World :=
  {| w_config := PermitConfig_new "permit_key_x" ctx;
     w_store := fun _ => ∅;
     w_remote := ok_remote;
     w_sent := [] |}.

Definition ok_response : Response :=
  {| status_code := 200; content := "{}"; headers := [("content-type", "application/json")] |}.

Definition invalid_response : Response :=
  {| status_code := 422; content := "{}"; headers := [] |}.

Definition missing_response : Response :=
  {| status_code := 404; content := "not found"; headers := [] |}.

Definition sample_tenants : TenantsApi.t :=
  {| TenantsApi.__tenants := {| base_url := "/v2/facts/proj/dev/tenants" |} |}.

Definition sample_tenant_request : ApiRequest :=
  {| method := GET; url := "/v2/facts/proj/dev/tenants/acme";
     params := None; json := None |}.

Definition alice_dict : dict :=
  <["key" := PyStr "alice"]> {["email" := PyStr "alice@example.com"]}.

Definition alice_world : World :=
  {| w_config := PermitConfig_new "permit_key_x" env_context;
     w_store := <[0%nat := alice_dict]> (fun _ => ∅);
     w_remote := ok_remote;
     w_sent := [] |}.

(** A user dictionary that is not valid as a [UserCreate]. *)
Definition bob_dict : dict :=
  <["key" := PyStr "bob"]> {["email" := PyInt 5]}.

Definition bob_world : World :=
  {| w_config := PermitConfig_new "permit_key_x" env_context;
     w_store := <[0%nat := bob_dict]> (fun _ => ∅);
     w_remote := ok_remote;
     w_sent := [] |}.

(** Two contexts with a slash in a key, and a world of the first. *)
Definition nested_context : ApiContext :=
  {| api_key_level := ENVIRONMENT_LEVEL_API_KEY;
     project := Some "a/b";
     environment := Some "c" |}.

Definition shifted_context : ApiContext :=
  {| api_key_level := ENVIRONMENT_LEVEL_API_KEY;
     project := Some "a";
     environment := Some "b/c" |}.

Definition other_context : ApiContext :=
  {| api_key_level := ENVIRONMENT_LEVEL_API_KEY;
     project := Some "proj";
     environment := Some "staging" |}.

Definition sample_client : Client :=
  {| client_base_url := "https://api.permit.io";
     verify_ssl := true;
     get_headers := {["Authorization" := "Bearer permit_key_x"]};
     get_cookies := {["permit_session" := "old"]};
     get_timeout := 5%Q |}.

Definition sample_assignment : RoleAssignment :=
  {| RoleAssignment_user := "alice";
     RoleAssignment_fields :=
       <["role" := PyStr "admin"]> {["tenant" := PyStr "acme"]} |}.

Definition sample_environments : EnvironmentsApi.t :=
  {| EnvironmentsApi.__environments := {| base_url := EmptyString |} |}.




(** The request of the generated endpoints, as [httpx] gets it. *)
Definition get_data_for_user_request (org_id proj_id env_id user_id : string)
    (client : Client) : Request :=
  HttpxReq {| verify := verify_ssl client;
              kwargs := get_data_for_user._get_kwargs org_id proj_id env_id
                          user_id client |}.

Definition create_resource_request (proj_id env_id : string) (client : Client)
    (json_body : Model) (permit_session : option string) : Request :=
  HttpxReq {| verify := verify_ssl client;
              kwargs := create_resource._get_kwargs proj_id env_id client
                          json_body permit_session |}.

(** ** Notions of the claims *)

(** The path [/v2/facts/{proj_id}/{env_id}/<resource>] of a context. *)
Definition facts_path (ctx : ApiContext) (resource : string) : string :=
  "/v2/facts/" ++ py_str_opt (project ctx) ++ "/"
  ++ py_str_opt (environment ctx) ++ "/" ++ resource.

(** A call of [UsersApi.sync] with a dictionary whose ["key"] entry is
    missing or [None]. *)
Definition sync_without_key (c : Call) (w : World) : bool :=
  match c with
  | OnUsers (Users_sync (SyncDict l)) =>
      bool_decide (default PyNone (w_store w l !! "key") = PyNone)
  | _ => false
  end.

(** The world after [user.pop("key", None)] on the dictionary at [l]. *)
Definition popped_key (l : loc) (w : World) : World :=
  {| w_config := w_config w;
     w_store := <[l := base.delete "key" (w_store w l)]> (w_store w);
     w_remote := w_remote w;
     w_sent := w_sent w |}.

(** The world after one more request. *)
Definition after_request (r : Request) (w : World) : World :=
  {| w_config := w_config w;
     w_store := w_store w;
     w_remote := w_remote w;
     w_sent := w_sent w ++ [r] |}.

(** The world with another [api_context] in its configuration. *)
Definition reconfigure (ctx : ApiContext) (w : World) : World :=
  {| w_config := set_api_context ctx (w_config w);
     w_store := w_store w;
     w_remote := w_remote w;
     w_sent := w_sent w |}.

(** The list-style operations, without their pagination arguments. *)
Inductive ListOp : Type :=
  | ListEnvironments (self : EnvironmentsApi.t) (project_key : string)
  | ListTenants (self : TenantsApi.t)
  | ListTenantUsers (self : TenantsApi.t) (tenant_key : string)
  | ListUsers
  | ListAssignedRoles (user : string) (tenant : option string).

Definition list_call (op : ListOp) (page per_page : option Z) : Call :=
  match op with
  | ListEnvironments self k => OnEnvironments self (Environments_list k page per_page)
  | ListTenants self => OnTenants self (Tenants_list page per_page)
  | ListTenantUsers self k =>
      OnTenants self (Tenants_list_tenant_users k page per_page)
  | ListUsers => OnUsers (Users_list page per_page)
  | ListAssignedRoles u t =>
      OnUsers (Users_get_assigned_roles u t page per_page)
  end.

(** The query parameters that are not about pagination. *)
Definition without_pagination (ps : dict) : dict :=
  base.delete "page" (base.delete "per_page" ps).




(** The world after the local effect of a call: [sync] pops the key of
    the dictionary it is given, when the dictionary reaches its body. *)
Definition locally_changed `{Codec} (c : Call) (w : World) : World :=
  match c with
  | OnUsers (Users_sync (SyncDict l)) =>
      match UsersApi.UserCreate_of_dict (w_store w l) with
      | Some _ => w
      | None => popped_key l w
      end
  | _ => w
  end.

(** The class each endpoint method names as [model=], by method. *)
Definition model_of (c : Call) : option ModelType :=
  match c with
  | OnTenants _ c =>
      match c with
      | Tenants_list _ _ => Some (ListOf (Cls "TenantRead"))
      | Tenants_list_tenant_users _ _ _ => Some (Cls "PaginatedResultUserRead")
      | Tenants_get _ | Tenants_get_by_key _ | Tenants_get_by_id _
      | Tenants_create _ | Tenants_update _ _ => Some (Cls "TenantRead")
      | Tenants_delete _ | Tenants_delete_tenant_user _ _ => None
      end
  | OnUsers c =>
      match c with
      | Users_list _ _ => Some (Cls "PaginatedResultUserRead")
      | Users_get _ | Users_get_by_key _ | Users_get_by_id _
      | Users_create _ | Users_update _ _ | Users_sync _ => Some (Cls "UserRead")
      | Users_delete _ | Users_unassign_role _ => None
      | Users_assign_role _ => Some (Cls "RoleAssignmentRead")
      | Users_get_assigned_roles _ _ _ _ =>
          Some (ListOf (Cls "RoleAssignmentRead"))
      end
  | OnEnvironments _ c =>
      match c with
      | Environments_list _ _ _ => Some (ListOf (Cls "EnvironmentRead"))
      | Environments_get _ _ | Environments_get_by_key _ _
      | Environments_get_by_id _ _ | Environments_create _ _
      | Environments_update _ _ _ | Environments_copy _ _ _ =>
          Some (Cls "EnvironmentRead")
      | Environments_get_stats _ _ => Some (Cls "EnvironmentStats")
      | Environments_get_api_key _ _ => Some (Cls "APIKeyRead")
      | Environments_delete _ _ => None
      end
  end.



(** [str(v)] of a dictionary value, case by case. *)
Definition rendered_key (v : pyval) : string :=
  match v with
  | PyStr s => s
  | PyInt n => pretty n
  | PyObj r => r
  | PyNone => "None"
  end.

Fixpoint slash_free (s : string) : bool :=
  match s with
  | EmptyString => true
  | String c s' => if Ascii.eqb c "/"%char then false else slash_free s'
  end.

(** The project and environment of a context, as they appear in a path. *)
Definition rendered (ctx : ApiContext) : string * string :=
  (py_str_opt (project ctx), py_str_opt (environment ctx)).

Definition slash_free_context (ctx : ApiContext) : bool :=
  slash_free (rendered ctx).1 && slash_free (rendered ctx).2.

(** * Properties *)

(** ** The monad *)

Create HintDb methods.

#[global] Hint Unfold
  TenantsApi.list_wrapped TenantsApi.list_tenant_users_wrapped
  TenantsApi.get_wrapped TenantsApi.get_by_key_wrapped
  TenantsApi.get_by_id_wrapped TenantsApi.create_wrapped
  TenantsApi.update_wrapped TenantsApi.delete_wrapped
  TenantsApi.delete_tenant_user_wrapped
  UsersApi.list_wrapped UsersApi.get_wrapped UsersApi.get_by_key_wrapped
  UsersApi.get_by_id_wrapped UsersApi.create_wrapped UsersApi.update_wrapped
  UsersApi.sync_wrapped UsersApi.delete_wrapped UsersApi.assign_role_wrapped
  UsersApi.unassign_role_wrapped UsersApi.get_assigned_roles_wrapped
  UsersApi.__users UsersApi.__role_assignments
  UsersApi.sync_user_key UsersApi.sync_json UsersApi.sync_body
  EnvironmentsApi.list_wrapped EnvironmentsApi.get_wrapped
  EnvironmentsApi.get_by_key_wrapped EnvironmentsApi.get_by_id_wrapped
  EnvironmentsApi.get_stats_wrapped EnvironmentsApi.get_api_key_wrapped
  EnvironmentsApi.create_wrapped EnvironmentsApi.update_wrapped
  EnvironmentsApi.copy_wrapped EnvironmentsApi.delete_wrapped
  TenantsApi.get UsersApi.get EnvironmentsApi.get
  SimpleHttpClient.get SimpleHttpClient.post SimpleHttpClient.put
  SimpleHttpClient.patch SimpleHttpClient.delete SimpleHttpClient.request
  _build_http_client : methods.

Lemma bind_ret_l {A B} (a : A) (k : A -> M B) (w : World) :
  bind (ret a) k w = k a w.
Proof. reflexivity. Qed.

Lemma bind_raise {A B} (e : exn) (k : A -> M B) (w : World) :
  bind (raise e) k w = (Raise e, w).
Proof. reflexivity. Qed.

Lemma bind_get_config {B} (k : PermitConfig -> M B) (w : World) :
  bind get_config k w = k (w_config w) w.
Proof. reflexivity. Qed.

Lemma issued_nil {A} (m : M A) (w : World) :
  w_sent (m w).2 = w_sent w -> issued m w = [].
Proof.
  intros E. unfold issued. rewrite E. apply drop_all.
Qed.

Lemma issued_one {A} (m : M A) (w : World) (r : Request) :
  w_sent (m w).2 = (w_sent w ++ [r])%list -> issued m w = [r].
Proof.
  intros E. unfold issued. rewrite E. apply drop_app_length.
Qed.

(** ** Sample runs *)

Example tenants_get_run :
  @TenantsApi.get echo_codec sample_tenants "acme" (sample_world env_context)
  = (Return "{}",
     after_request (ApiReq sample_tenant_request) (sample_world env_context)).
Proof. reflexivity. Qed.

Example tenants_get_wrong_level :
  @TenantsApi.get echo_codec sample_tenants "acme" (sample_world project_context)
  = (Raise PermitContextError, sample_world project_context).
Proof. reflexivity. Qed.

Example users_sync_empty_dict :
  outcome (@UsersApi.sync echo_codec (SyncDict 0%nat)) (sample_world env_context)
  = Raise (KeyError "required 'key' in input dictionary").
Proof. reflexivity. Qed.

Example users_sync_alice :
  issued (@UsersApi.sync echo_codec (SyncDict 0%nat)) alice_world
  = [ApiReq {| method := PUT; url := "/v2/facts/proj/dev/users/alice";
               params := None;
               json := Some (JsonUserCreate
                               {| UserCreate_key := "alice";
                                  UserCreate_fields :=
                                    {["email" := PyStr "alice@example.com"]} |}) |}].
Proof. vm_compute. reflexivity. Qed.

Example users_sync_bob :
  issued (@UsersApi.sync echo_codec (SyncDict 0%nat)) bob_world
  = [ApiReq {| method := PUT; url := "/v2/facts/proj/dev/users/bob";
               params := None;
               json := Some (JsonDict {["email" := PyInt 5]}) |}].
Proof. vm_compute. reflexivity. Qed.

Example environments_get_api_key_run :
  issued (@EnvironmentsApi.get_api_key echo_codec
            {| EnvironmentsApi.__environments := _build_http_client "" |}
            "proj" "dev")
    (sample_world project_context)
  = [ApiReq {| method := GET; url := "/v2/api-key/proj/dev";
               params := None; json := None |}].
Proof. reflexivity. Qed.

Example get_data_for_user_url :
  kw_url (get_data_for_user._get_kwargs "org" "proj" "dev" "alice"
            {| client_base_url := "https://api.permit.io"; verify_ssl := true;
               get_headers := ∅; get_cookies := ∅; get_timeout := 5%Q |})
  = "https://api.permit.io/v2/internal/opal_data/org/proj/dev/users/alice".
Proof. reflexivity. Qed.

Example py_str_int : py_str (PyInt 42) = "42".
Proof. reflexivity. Qed.

(** ** The guard *)

Lemma ensure_context_mismatch {A} (call_level : ApiKeyLevel) (func : M A)
    (w : World) :
  configured_level w <> call_level ->
  ensure_context call_level func w = (Raise PermitContextError, w).
Proof.
  intros Hne. unfold ensure_context. rewrite bind_get_config.
  unfold configured_level in Hne.
  destruct (decide _) as [E|E]; [contradiction | reflexivity].
Qed.

Lemma ensure_context_match {A} (call_level : ApiKeyLevel) (func : M A)
    (w : World) :
  configured_level w = call_level ->
  ensure_context call_level func w = func w.
Proof.
  intros He. unfold ensure_context. rewrite bind_get_config.
  unfold configured_level in He.
  destruct (decide _) as [E|E]; [reflexivity | contradiction].
Qed.

(** Every endpoint method is its body under the guard of its class. *)
Lemma invoke_guarded `{Codec} (c : Call) :
  invoke c = ensure_context (call_level c) (wrapped c).
Proof. destruct c as [self c | c | self c]; destruct c; reflexivity. Qed.

(** C1. For every public endpoint method of [EnvironmentsApi], [TenantsApi]
    and [UsersApi], the call first compares the configured API-key level
    with the level the endpoint requires.  On a mismatch it raises
    [PermitContextError], issues no HTTP request and leaves the whole state
    as it was; on a match it runs the wrapped method. *)
Theorem ensure_context_guards_every_endpoint `{Codec} (c : Call) (w : World) :
  (configured_level w <> call_level c ->
     invoke c w = (Raise PermitContextError, w) /\ issued (invoke c) w = [])
  /\ (configured_level w = call_level c -> invoke c w = wrapped c w).
Proof.
  rewrite invoke_guarded. split; intros Hl.
  - assert (E := ensure_context_mismatch (call_level c) (wrapped c) w Hl).
    split; [exact E|]. apply issued_nil. now rewrite E.
  - now apply ensure_context_match.
Qed.

Lemma ensure_context_guards_every_endpoint_witness :
  @invoke echo_codec (OnUsers (Users_get "alice")) (sample_world project_context)
    = (Raise PermitContextError, sample_world project_context)
  /\ @invoke echo_codec (OnUsers (Users_get "alice")) (sample_world env_context)
     = @wrapped echo_codec (OnUsers (Users_get "alice"))
         (sample_world env_context).
Proof.
  split.
  - apply (proj1 (@ensure_context_guards_every_endpoint echo_codec
             (OnUsers (Users_get "alice")) (sample_world project_context))).
    vm_compute. discriminate.
  - apply (proj2 (@ensure_context_guards_every_endpoint echo_codec
             (OnUsers (Users_get "alice")) (sample_world env_context))).
    reflexivity.
Defined.

(** ** UsersApi.sync *)

Lemma facts_path_eq (ctx : ApiContext) (resource : string) :
  "/v2/facts/" ++ py_str_opt (project ctx) ++ "/"
  ++ py_str_opt (environment ctx) ++ "/" ++ resource
  = facts_path ctx resource.
Proof. reflexivity. Qed.

Lemma UserCreate_of_dict_keyless `{Codec} (d : dict) :
  default PyNone (d !! "key") = PyNone -> UsersApi.UserCreate_of_dict d = None.
Proof. intros Hk. unfold UsersApi.UserCreate_of_dict. now case_decide. Qed.

Lemma UserCreate_of_dict_Some `{Codec} (d : dict) (u : UserCreate) :
  UsersApi.UserCreate_of_dict d = Some u ->
  default PyNone (d !! "key") <> PyNone.
Proof. unfold UsersApi.UserCreate_of_dict. now case_decide. Qed.

(** A dictionary that is not valid as a model reaches the body. *)
Lemma sync_wrapped_dict_body `{Codec} (l : loc) (w : World) :
  UsersApi.UserCreate_of_dict (w_store w l) = None ->
  UsersApi.sync_wrapped (SyncDict l) w = UsersApi.sync_body (SyncDict l) w.
Proof.
  intros Hv. unfold UsersApi.sync_wrapped, UsersApi.validate_sync_arg.
  unfold bind at 1 2. unfold read_dict at 1. cbn [fst snd]. now rewrite Hv.
Qed.

(** A dictionary that is valid as a model reaches the body as the model. *)
Lemma sync_wrapped_dict_model `{Codec} (l : loc) (w : World) (u : UserCreate) :
  UsersApi.UserCreate_of_dict (w_store w l) = Some u ->
  UsersApi.sync_wrapped (SyncDict l) w = UsersApi.sync_body (SyncModel u) w.
Proof.
  intros Hv. unfold UsersApi.sync_wrapped, UsersApi.validate_sync_arg.
  unfold bind at 1 2. unfold read_dict at 1. cbn [fst snd]. now rewrite Hv.
Qed.

Lemma sync_wrapped_without_key `{Codec} (l : loc) (w : World) :
  default PyNone (w_store w l !! "key") = PyNone ->
  UsersApi.sync_wrapped (SyncDict l) w
  = (Raise (KeyError "required 'key' in input dictionary"), popped_key l w).
Proof.
  intros Hk.
  rewrite (sync_wrapped_dict_body l w (UserCreate_of_dict_keyless _ Hk)).
  unfold UsersApi.sync_body, UsersApi.sync_user_key.
  unfold bind at 1 2 3. unfold read_dict at 1. unfold write_dict, dict_pop.
  cbn [fst snd]. rewrite Hk. reflexivity.
Qed.

Lemma sync_wrapped_with_key `{Codec} (l : loc) (w : World) (k : pyval) :
  w_store w l !! "key" = Some k -> k <> PyNone ->
  UsersApi.UserCreate_of_dict (w_store w l) = None ->
  let r := ApiReq {| method := PUT;
                     url := facts_path (api_context (w_config w)) "users"
                            ++ "/" ++ py_str k;
                     params := None;
                     json := Some (JsonDict (base.delete "key" (w_store w l))) |} in
  UsersApi.sync_wrapped (SyncDict l) w
  = (unmarshal (Some (Cls "UserRead")) (w_remote w r),
     after_request r (popped_key l w)).
Proof.
  intros Hk Hne Hv r. rewrite (sync_wrapped_dict_body l w Hv).
  unfold UsersApi.sync_body, UsersApi.sync_user_key.
  unfold bind at 1 2 3. unfold read_dict at 1. unfold write_dict, dict_pop.
  cbn [fst snd]. rewrite Hk. cbn [default].
  autounfold with methods.
  unfold bind, get_config, ret, read_dict, send, lift.
  case_decide; [contradiction|]. cbn.
  rewrite fn_lookup_insert. reflexivity.
Qed.

Lemma sync_body_model `{Codec} (u : UserCreate) (w : World) :
  let r := ApiReq {| method := PUT;
                     url := facts_path (api_context (w_config w)) "users"
                            ++ "/" ++ UserCreate_key u;
                     params := None;
                     json := Some (JsonUserCreate u) |} in
  UsersApi.sync_body (SyncModel u) w
  = (unmarshal (Some (Cls "UserRead")) (w_remote w r), after_request r w).
Proof. reflexivity. Qed.

(** The two ways a dictionary with a key goes. *)
Lemma sync_wrapped_dict_cases `{Codec} (l : loc) (w : World) :
  default PyNone (w_store w l !! "key") <> PyNone ->
  exists seg body,
    let r := ApiReq {| method := PUT;
                       url := facts_path (api_context (w_config w)) "users"
                              ++ "/" ++ seg;
                       params := None; json := Some body |} in
    UsersApi.sync_wrapped (SyncDict l) w
    = (unmarshal (Some (Cls "UserRead")) (w_remote w r),
       after_request r (locally_changed (OnUsers (Users_sync (SyncDict l))) w))
    /\ (forall w', w_config w' = w_config w ->
                   (forall l', w_store w' l' = w_store w l') ->
                   UsersApi.sync_wrapped (SyncDict l) w'
                   = (unmarshal (Some (Cls "UserRead")) (w_remote w' r),
                      after_request r
                        (locally_changed (OnUsers (Users_sync (SyncDict l))) w'))).
Proof.
  intros Hk.
  destruct (w_store w l !! "key") as [k|] eqn:Ek; [|contradiction].
  cbn [default] in Hk. cbn [locally_changed].
  destruct (UsersApi.UserCreate_of_dict (w_store w l)) as [u|] eqn:Hv.
  - exists (UserCreate_key u), (JsonUserCreate u). cbn zeta. split.
    + rewrite (sync_wrapped_dict_model l w u Hv). apply sync_body_model.
    + intros w' Hc Hst.
      assert (Hv' : UsersApi.UserCreate_of_dict (w_store w' l) = Some u)
        by now rewrite Hst.
      rewrite (sync_wrapped_dict_model l w' u Hv'), Hv', <- Hc.
      apply sync_body_model.
  - exists (py_str k), (JsonDict (base.delete "key" (w_store w l))). cbn zeta.
    split.
    + apply (sync_wrapped_with_key l w k Ek Hk Hv).
    + intros w' Hc Hst.
      assert (Hv' : UsersApi.UserCreate_of_dict (w_store w' l) = None)
        by now rewrite Hst.
      rewrite Hv', <- Hc, <- (Hst l).
      apply (sync_wrapped_with_key l w' k); [now rewrite Hst | exact Hk | exact Hv'].
Qed.

Lemma sync_wrapped_model `{Codec} (u : UserCreate) (w : World) :
  let r := ApiReq {| method := PUT;
                     url := facts_path (api_context (w_config w)) "users"
                            ++ "/" ++ UserCreate_key u;
                     params := None;
                     json := Some (JsonUserCreate u) |} in
  UsersApi.sync_wrapped (SyncModel u) w
  = (unmarshal (Some (Cls "UserRead")) (w_remote w r), after_request r w).
Proof. reflexivity. Qed.

(** ** One request per call *)

Ltac guard_passes :=
  repeat rewrite ensure_context_match by assumption.

Ltac run_methods :=
  autounfold with methods; guard_passes;
  autounfold with methods.

Lemma openapi_sends_one `{Codec} (c : OpenapiCall) (w : World) :
  exists r, w_sent (invoke_openapi c w).2 = (w_sent w ++ [HttpxReq r])%list.
Proof.
  destruct c; eexists; cbn;
    unfold fmap_M, get_data_for_user.sync, get_data_for_user.asyncio,
      create_resource.sync, create_resource.asyncio,
      get_data_for_user.sync_detailed, get_data_for_user.asyncio_detailed,
      create_resource.sync_detailed, create_resource.asyncio_detailed,
      httpx_request, AsyncClient_request, bind, send, lift, ret; cbn.
  all: match goal with
       | |- context [get_data_for_user._build_response ?r] =>
           destruct (get_data_for_user._build_response r)
       | |- context [create_resource._build_response ?r] =>
           destruct (create_resource._build_response r)
       end; reflexivity.
Qed.

(** With the guard passed, a call that is not a key-less [sync] sends one
    request. *)
Lemma wrapped_sends_one `{Codec} (c : Call) (w : World) :
  configured_level w = call_level c ->
  sync_without_key c w = false ->
  exists r, w_sent (wrapped c w).2 = (w_sent w ++ [ApiReq r])%list.
Proof.
  intros Hl Hs.
  destruct c as [self c | c | self c]; destruct c; cbn in Hl, Hs;
    cbn [wrapped].
  all: try solve [run_methods; eexists; reflexivity].
  match goal with x : sync_arg |- _ => destruct x as [u | l] end.
  - rewrite sync_wrapped_model. eexists; reflexivity.
  - apply bool_decide_eq_false in Hs.
    destruct (sync_wrapped_dict_cases l w Hs) as (seg & body & E & _).
    cbn zeta in E. rewrite E. eexists.
    cbn [locally_changed].
    destruct (UsersApi.UserCreate_of_dict (w_store w l)); reflexivity.
Qed.

(** With the guard passed, a key-less [sync] raises and sends nothing. *)
Lemma keyless_sync_raises `{Codec} (c : Call) (w : World) :
  configured_level w = call_level c ->
  sync_without_key c w = true ->
  outcome (invoke c) w = Raise (KeyError "required 'key' in input dictionary")
  /\ w_sent (invoke c w).2 = w_sent w.
Proof.
  intros Hl Hs.
  destruct c as [self c | c | self c]; try discriminate.
  destruct c; try discriminate.
  match goal with x : sync_arg |- _ => destruct x as [u | l] end;
    try discriminate.
  cbn in Hs, Hl. apply bool_decide_eq_true in Hs.
  unfold outcome. cbn [invoke]. unfold UsersApi.sync. guard_passes.
  rewrite (sync_wrapped_without_key l w Hs). split; reflexivity.
Qed.

(** C2 (as amended).  Every generated endpoint function issues exactly one
    HTTP request.  Every method of the resource API classes, once its
    guard has passed, issues exactly one HTTP request, with one exception:
    [UsersApi.sync] given a dictionary without a ["key"] entry (or with
    [None] there) raises [KeyError] and issues none. *)
Theorem one_request_per_call `{Codec} :
  (forall (c : OpenapiCall) (w : World),
     exists r, w_sent (invoke_openapi c w).2 = (w_sent w ++ [HttpxReq r])%list)
  /\ (forall (c : Call) (w : World),
        configured_level w = call_level c ->
        if sync_without_key c w
        then outcome (invoke c) w
               = Raise (KeyError "required 'key' in input dictionary")
             /\ w_sent (invoke c w).2 = w_sent w
        else exists r,
               w_sent (invoke c w).2 = (w_sent w ++ [ApiReq r])%list).
Proof.
  split; [apply openapi_sends_one|].
  intros c w Hl. destruct (sync_without_key c w) eqn:Hs.
  - now apply keyless_sync_raises.
  - rewrite invoke_guarded, ensure_context_match by assumption.
    now apply wrapped_sends_one.
Qed.

Lemma one_request_per_call_witness :
  exists r,
    w_sent (@invoke echo_codec (OnUsers (Users_get "alice"))
              (sample_world env_context)).2
    = (w_sent (sample_world env_context) ++ [ApiReq r])%list.
Proof.
  exact (proj2 (@one_request_per_call echo_codec)
           (OnUsers (Users_get "alice")) (sample_world env_context)
           eq_refl).
Defined.

(** C2 fails as stated: with the guard passed, [UsersApi.sync] on an empty
    dictionary returns without any request having been issued. *)
Lemma one_request_per_call_counterexample :
  ~ (forall (c : Call) (w : World),
       configured_level w = call_level c ->
       exists r, w_sent (@invoke echo_codec c w).2 = (w_sent w ++ [r])%list).
Proof.
  intros Hall.
  destruct (Hall (OnUsers (Users_sync (SyncDict 0%nat)))
              (sample_world env_context) eq_refl) as [r Hr].
  vm_compute in Hr. discriminate Hr.
Qed.

(** ** Unmarshalling in the generated endpoints *)

Section parse_response.
Context `{Codec}.

Lemma get_data_for_user_parse_200 (response : Response) (j : Json) (m : Parsed) :
  status_code response = 200 ->
  response_json response = Return j -> parse_obj UserData j = Return m ->
  get_data_for_user._parse_response response = Return (Some m).
Proof.
  intros Hs Hj Hm. unfold get_data_for_user._parse_response.
  case_decide; [|contradiction]. now rewrite Hj; cbn; rewrite Hm.
Qed.

Lemma get_data_for_user_parse_422 (response : Response) (j : Json) (m : Parsed) :
  status_code response = 422 ->
  response_json response = Return j ->
  parse_obj HTTPValidationError j = Return m ->
  get_data_for_user._parse_response response = Return (Some m).
Proof.
  intros Hs Hj Hm. unfold get_data_for_user._parse_response.
  case_decide; [lia|]. case_decide; [|contradiction].
  now rewrite Hj; cbn; rewrite Hm.
Qed.

Lemma get_data_for_user_parse_other (response : Response) :
  status_code response <> 200 -> status_code response <> 422 ->
  get_data_for_user._parse_response response = Return None.
Proof.
  intros H200 H422. unfold get_data_for_user._parse_response.
  now repeat (case_decide; [contradiction|]).
Qed.

Lemma create_resource_parse_200 (response : Response) (j : Json) (m : Parsed) :
  status_code response = 200 ->
  response_json response = Return j -> parse_obj ResourceRead j = Return m ->
  create_resource._parse_response response = Return (Some m).
Proof.
  intros Hs Hj Hm. unfold create_resource._parse_response.
  case_decide; [|contradiction]. now rewrite Hj; cbn; rewrite Hm.
Qed.

Lemma create_resource_parse_422 (response : Response) (j : Json) (m : Parsed) :
  status_code response = 422 ->
  response_json response = Return j ->
  parse_obj HTTPValidationError j = Return m ->
  create_resource._parse_response response = Return (Some m).
Proof.
  intros Hs Hj Hm. unfold create_resource._parse_response.
  case_decide; [lia|]. case_decide; [|contradiction].
  now rewrite Hj; cbn; rewrite Hm.
Qed.

Lemma create_resource_parse_other (response : Response) :
  status_code response <> 200 -> status_code response <> 422 ->
  create_resource._parse_response response = Return None.
Proof.
  intros H200 H422. unfold create_resource._parse_response.
  now repeat (case_decide; [contradiction|]).
Qed.

(** C3. In both generated modules, [_parse_response] returns the success
    model parsed from the response JSON on status 200, the
    [HTTPValidationError] parsed from the response JSON on status 422, and
    [None] on every other status; [_build_response] returns that parsed
    value together with the status code, content and headers of the
    response as they are. *)
Theorem parse_response_by_status (response : Response) :
  (forall j m,
     status_code response = 200 -> response_json response = Return j ->
     (parse_obj UserData j = Return m ->
      get_data_for_user._parse_response response = Return (Some m))
     /\ (parse_obj ResourceRead j = Return m ->
         create_resource._parse_response response = Return (Some m)))
  /\ (forall j m,
        status_code response = 422 -> response_json response = Return j ->
        parse_obj HTTPValidationError j = Return m ->
        get_data_for_user._parse_response response = Return (Some m)
        /\ create_resource._parse_response response = Return (Some m))
  /\ (status_code response <> 200 -> status_code response <> 422 ->
      get_data_for_user._parse_response response = Return None
      /\ create_resource._parse_response response = Return None)
  /\ (forall p,
        get_data_for_user._parse_response response = Return p ->
        get_data_for_user._build_response response
        = Return {| types.status_code := status_code response;
                    types.content := content response;
                    types.headers := headers response;
                    types.parsed := p |})
  /\ (forall p,
        create_resource._parse_response response = Return p ->
        create_resource._build_response response
        = Return {| types.status_code := status_code response;
                    types.content := content response;
                    types.headers := headers response;
                    types.parsed := p |}).
Proof.
  split; [|split; [|split; [|split]]].
  - intros j m Hs Hj. split; intros Hm.
    + now apply (get_data_for_user_parse_200 response j m).
    + now apply (create_resource_parse_200 response j m).
  - intros j m Hs Hj Hm. split.
    + now apply (get_data_for_user_parse_422 response j m).
    + now apply (create_resource_parse_422 response j m).
  - intros H200 H422. split.
    + now apply get_data_for_user_parse_other.
    + now apply create_resource_parse_other.
  - intros p Hp. unfold get_data_for_user._build_response. now rewrite Hp.
  - intros p Hp. unfold create_resource._build_response. now rewrite Hp.
Qed.

End parse_response.

Lemma parse_response_by_status_witness :
  @get_data_for_user._parse_response echo_codec ok_response = Return (Some "{}")
  /\ @create_resource._parse_response echo_codec invalid_response
     = Return (Some "{}")
  /\ @create_resource._parse_response echo_codec missing_response = Return None
  /\ @get_data_for_user._build_response echo_codec missing_response
     = Return {| types.status_code := 404;
                 types.content := "not found";
                 types.headers := [];
                 types.parsed := None |}.
Proof.
  split; [|split; [|split]].
  - apply (proj1 (proj1 (@parse_response_by_status echo_codec ok_response)
                    "{}" "{}" eq_refl eq_refl)).
    reflexivity.
  - apply (proj1 (proj2 (@parse_response_by_status echo_codec
                           invalid_response)) "{}" "{}"); reflexivity.
  - apply (proj1 (proj2 (proj2 (@parse_response_by_status echo_codec
                                  missing_response))));
      vm_compute; discriminate.
  - apply (proj1 (proj2 (proj2 (proj2 (@parse_response_by_status echo_codec
                                         missing_response)))) None).
    reflexivity.
Defined.

(** ** Pagination *)

Lemma pagination_params_page (page per_page : Z) :
  pagination_params page per_page !! "page" = Some (PyInt page).
Proof. unfold pagination_params. now rewrite lookup_insert_eq. Qed.

Lemma pagination_params_per_page (page per_page : Z) :
  pagination_params page per_page !! "per_page" = Some (PyInt per_page).
Proof.
  unfold pagination_params.
  rewrite lookup_insert_ne by discriminate. apply lookup_singleton_eq.
Qed.

Lemma pagination_params_without (page per_page : Z) :
  without_pagination (pagination_params page per_page) = ∅.
Proof.
  unfold without_pagination, pagination_params.
  rewrite delete_insert_ne by discriminate.
  rewrite delete_singleton_eq. rewrite delete_insert_eq. apply delete_empty.
Qed.

Lemma without_pagination_insert (k : string) (v : pyval) (ps : dict) :
  k <> "page" -> k <> "per_page" ->
  without_pagination (<[k := v]> ps) = <[k := v]> (without_pagination ps).
Proof.
  intros H1 H2. unfold without_pagination.
  now rewrite !delete_insert_ne by congruence.
Qed.

Ltac issued_by_running :=
  apply issued_one; rewrite invoke_guarded, ensure_context_match by assumption;
  cbn [wrapped list_call]; run_methods; reflexivity.

(** C4. For [EnvironmentsApi.list], [TenantsApi.list],
    [TenantsApi.list_tenant_users], [UsersApi.list] and
    [UsersApi.get_assigned_roles], the request carries the call's [page] and
    [per_page] as the query parameters ["page"] and ["per_page"], 1 and 100
    when the caller leaves them out; nothing else of the request (method,
    URL, body, the other query parameters) depends on them. *)
Theorem pagination_in_query_params `{Codec} (op : ListOp)
    (page per_page page' per_page' : option Z) (w : World) :
  configured_level w = call_level (list_call op page per_page) ->
  exists r r' ps ps',
    issued (invoke (list_call op page per_page)) w = [ApiReq r]
    /\ issued (invoke (list_call op page' per_page')) w = [ApiReq r']
    /\ params r = Some ps /\ params r' = Some ps'
    /\ ps !! "page" = Some (PyInt (default 1 page))
    /\ ps !! "per_page" = Some (PyInt (default 100 per_page))
    /\ method r' = method r /\ url r' = url r /\ json r' = json r
    /\ without_pagination ps' = without_pagination ps.
Proof.
  intros Hl.
  destruct op as [self k | self | self k | | u t]; cbn in Hl.
  1-4: do 4 eexists; split; [issued_by_running|];
       split; [issued_by_running|]; cbn [params method url json];
       split; [reflexivity|]; split; [reflexivity|];
       split; [apply pagination_params_page|];
       split; [apply pagination_params_per_page|];
       repeat (split; [reflexivity|]);
       now rewrite !pagination_params_without.
  destruct t as [t|].
  - do 4 eexists; split; [issued_by_running|];
      split; [issued_by_running|]; cbn [params method url json];
      split; [reflexivity|]; split; [reflexivity|].
    split; [rewrite !lookup_insert_ne by discriminate;
            apply pagination_params_page|].
    split; [rewrite !lookup_insert_ne by discriminate;
            apply pagination_params_per_page|].
    repeat (split; [reflexivity|]).
    rewrite !without_pagination_insert by discriminate.
    now rewrite !pagination_params_without.
  - do 4 eexists; split; [issued_by_running|];
      split; [issued_by_running|]; cbn [params method url json];
      split; [reflexivity|]; split; [reflexivity|].
    split; [rewrite !lookup_insert_ne by discriminate;
            apply pagination_params_page|].
    split; [rewrite !lookup_insert_ne by discriminate;
            apply pagination_params_per_page|].
    repeat (split; [reflexivity|]).
    rewrite !without_pagination_insert by discriminate.
    now rewrite !pagination_params_without.
Qed.

Lemma pagination_in_query_params_witness :
  exists r r' ps ps',
    issued (@invoke echo_codec (list_call ListUsers None (Some 20)))
      (sample_world env_context) = [ApiReq r]
    /\ issued (@invoke echo_codec (list_call ListUsers (Some 3) None))
         (sample_world env_context) = [ApiReq r']
    /\ params r = Some ps /\ params r' = Some ps'
    /\ ps !! "page" = Some (PyInt (default 1 None))
    /\ ps !! "per_page" = Some (PyInt (default 100 (Some 20)))
    /\ method r' = method r /\ url r' = url r /\ json r' = json r
    /\ without_pagination ps' = without_pagination ps.
Proof.
  exact (@pagination_in_query_params echo_codec ListUsers None (Some 20)
           (Some 3) None (sample_world env_context) eq_refl).
Defined.

(** ** Resource paths *)

Lemma string_app_assoc (a b c : string) : (a ++ b) ++ c = a ++ b ++ c.
Proof.
  induction a as [|x a IH]; [reflexivity|].
  change (String x ((a ++ b) ++ c) = String x (a ++ b ++ c)).
  now f_equal.
Qed.

Lemma string_app_nil_r (a : string) : a ++ "" = a.
Proof.
  induction a as [|x a IH]; [reflexivity|].
  change (String x (a ++ "") = String x a). now f_equal.
Qed.

Lemma prefix_app (a b : string) : String.prefix a (a ++ b) = true.
Proof.
  induction a as [|x a IH]; [now destruct b|].
  change (String.prefix (String x a) (String x (a ++ b)) = true).
  cbn [String.prefix].
  destruct (Ascii.ascii_dec x x); [exact IH | contradiction].
Qed.


Lemma TenantsApi_init_inv (w0 : World) (self : TenantsApi.t) :
  TenantsApi.__init__ w0 = (Return self, w0) ->
  base_url (TenantsApi.__tenants self)
  = facts_path (api_context (w_config w0)) "tenants".
Proof. intros E. injection E as <-. reflexivity. Qed.


Lemma in_issued_one {A} (m : M A) (w : World) (r0 r : ApiRequest) :
  w_sent (m w).2 = (w_sent w ++ [ApiReq r0])%list ->
  ApiReq r ∈ issued m w -> r = r0.
Proof.
  intros E Hin. rewrite (issued_one m w _ E) in Hin.
  apply list_elem_of_singleton in Hin. congruence.
Qed.

Lemma in_issued_nil {A} (m : M A) (w : World) (r : Request) :
  w_sent (m w).2 = w_sent w -> r ∈ issued m w -> False.
Proof.
  intros E Hin. rewrite (issued_nil m w E) in Hin. now apply elem_of_nil in Hin.
Qed.

(** What [UsersApi.sync] issues on a dictionary. *)
Lemma sync_dict_issued `{Codec} (l : loc) (w : World) (r : ApiRequest) :
  configured_level w = ENVIRONMENT_LEVEL_API_KEY ->
  ApiReq r ∈ issued (UsersApi.sync (SyncDict l)) w ->
  exists seg body,
    r = {| method := PUT;
           url := facts_path (api_context (w_config w)) "users" ++ "/" ++ seg;
           params := None;
           json := Some body |}.
Proof.
  intros Hl Hin.
  destruct (decide (default PyNone (w_store w l !! "key") = PyNone)) as [Hk|Hk].
  - exfalso. revert Hin. apply in_issued_nil.
    unfold UsersApi.sync. guard_passes.
    now rewrite (sync_wrapped_without_key l w Hk).
  - destruct (sync_wrapped_dict_cases l w Hk) as (seg & body & E & _).
    cbn zeta in E. exists seg, body.
    revert Hin. apply in_issued_one.
    unfold UsersApi.sync. guard_passes. rewrite E.
    cbn [locally_changed].
    destruct (UsersApi.UserCreate_of_dict (w_store w l)); reflexivity.
Qed.

Ltac sent_by_running :=
  rewrite invoke_guarded, ensure_context_match by assumption;
  cbn [wrapped]; run_methods; reflexivity.

(** Turn [Hin : ApiReq r ∈ issued (invoke c) w] into the request. *)
Ltac pin_request Hin :=
  eapply in_issued_one in Hin; [ | sent_by_running ]; rewrite Hin.

(** The URL of a request of a [TenantsApi] object starts with the path of
    the client the object holds. *)
Lemma tenants_url_form `{Codec} (self : TenantsApi.t) (c : TenantsCall)
    (w : World) (r : ApiRequest) :
  configured_level w = ENVIRONMENT_LEVEL_API_KEY ->
  ApiReq r ∈ issued (invoke (OnTenants self c)) w ->
  exists path, url r = base_url (TenantsApi.__tenants self) ++ path.
Proof.
  intros Hl Hin. destruct c; eexists; pin_request Hin; reflexivity.
Qed.




(** ** Where the result of a call comes from *)

(** With the guard passed, a call that is not a key-less [sync] sends one
    request, fixed by the call, the configuration and the store, and
    returns what the response unmarshals to. *)
Lemma invoke_shape `{Codec} (c : Call) (w : World) :
  configured_level w = call_level c ->
  sync_without_key c w = false ->
  exists r,
    forall w',
      w_config w' = w_config w -> (forall l, w_store w' l = w_store w l) ->
      invoke c w' = (unmarshal (model_of c) (w_remote w' (ApiReq r)),
                     after_request (ApiReq r) (locally_changed c w')).
Proof.
  intros Hl Hs.
  assert (Hl' : forall w', w_config w' = w_config w ->
                           configured_level w' = call_level c).
  { intros w' E. unfold configured_level in *. now rewrite E. }
  destruct c as [self c | c | self c]; destruct c; cbn in Hl, Hl', Hs.
  all: try solve
    [ eexists; intros w' Hc Hst; specialize (Hl' w' Hc);
      rewrite invoke_guarded, ensure_context_match by assumption;
      cbn [wrapped locally_changed model_of]; run_methods;
      unfold bind, get_config, ret, send, lift, after_request; cbn;
      rewrite ?Hc; reflexivity ].
  match goal with x : sync_arg |- _ => destruct x as [u | l] end.
  - eexists; intros w' Hc Hst; specialize (Hl' w' Hc).
    cbn [invoke model_of]. unfold UsersApi.sync. guard_passes.
    rewrite sync_wrapped_model. cbn zeta. cbn [locally_changed].
    unfold after_request. rewrite ?Hc. reflexivity.
  - apply bool_decide_eq_false in Hs.
    destruct (sync_wrapped_dict_cases l w Hs) as (seg & body & _ & E).
    cbn zeta in E. eexists; intros w' Hc Hst; specialize (Hl' w' Hc).
    cbn [invoke model_of]. unfold UsersApi.sync. guard_passes.
    apply (E w' Hc Hst).
Qed.


Ltac case_build_response :=
  match goal with
  | |- context [get_data_for_user._build_response ?r] =>
      destruct (get_data_for_user._build_response r)
  | |- context [create_resource._build_response ?r] =>
      destruct (create_resource._build_response r)
  end.





(** ** UsersApi.sync and the caller's dictionary *)

Lemma py_str_rendered (v : pyval) : py_str v = rendered_key v.
Proof. now destruct v. Qed.

(** C7 (as amended).  [UsersApi.sync] on a dictionary without a ["key"]
    entry, or with [None] there, raises [KeyError] and issues no request.
    A dictionary with a key that [validate_arguments] accepts as a
    [UserCreate] reaches the body as that model: the caller's dictionary is
    left as it is, the model is the body of the PUT and its [key] is in the
    path.  A dictionary with a key that is not valid as a [UserCreate] has
    the entry removed in place, the key in the path, and what is left of it
    as the body, which has no ["key"].  A [UserCreate] model is sent as it
    is, with its [key] in the path. *)
Theorem sync_pops_key `{Codec} (w : World) :
  configured_level w = ENVIRONMENT_LEVEL_API_KEY ->
  (forall l,
     w_store w l !! "key" = None \/ w_store w l !! "key" = Some PyNone ->
     outcome (UsersApi.sync (SyncDict l)) w
       = Raise (KeyError "required 'key' in input dictionary")
     /\ issued (UsersApi.sync (SyncDict l)) w = [])
  /\ (forall l k,
        w_store w l !! "key" = Some k -> k <> PyNone ->
        UserCreate_validate (w_store w l) = None ->
        exists body,
          issued (UsersApi.sync (SyncDict l)) w
            = [ApiReq {| method := PUT;
                         url := facts_path (api_context (w_config w)) "users"
                                ++ "/" ++ rendered_key k;
                         params := None;
                         json := Some (JsonDict body) |}]
          /\ body = base.delete "key" (w_store w l)
          /\ body !! "key" = None
          /\ w_store (UsersApi.sync (SyncDict l) w).2 l = body
          /\ forall l', l' <> l ->
               w_store (UsersApi.sync (SyncDict l) w).2 l' = w_store w l')
  /\ (forall l k u,
        w_store w l !! "key" = Some k -> k <> PyNone ->
        UserCreate_validate (w_store w l) = Some u ->
        issued (UsersApi.sync (SyncDict l)) w
          = [ApiReq {| method := PUT;
                       url := facts_path (api_context (w_config w)) "users"
                              ++ "/" ++ UserCreate_key u;
                       params := None;
                       json := Some (JsonUserCreate u) |}]
        /\ w_store (UsersApi.sync (SyncDict l) w).2 = w_store w)
  /\ (forall u,
        issued (UsersApi.sync (SyncModel u)) w
          = [ApiReq {| method := PUT;
                       url := facts_path (api_context (w_config w)) "users"
                              ++ "/" ++ UserCreate_key u;
                       params := None;
                       json := Some (JsonUserCreate u) |}]
        /\ w_store (UsersApi.sync (SyncModel u) w).2 = w_store w).
Proof.
  intros Hl. split; [|split; [|split]].
  - intros l Hk.
    assert (Hk' : default PyNone (w_store w l !! "key") = PyNone)
      by (destruct Hk as [-> | ->]; reflexivity).
    unfold outcome, UsersApi.sync. guard_passes.
    split.
    + now rewrite (sync_wrapped_without_key l w Hk').
    + apply issued_nil. guard_passes.
      now rewrite (sync_wrapped_without_key l w Hk').
  - intros l k Hk Hne Hv. exists (base.delete "key" (w_store w l)).
    assert (Hv' : UsersApi.UserCreate_of_dict (w_store w l) = None).
    { unfold UsersApi.UserCreate_of_dict. now case_decide. }
    unfold UsersApi.sync. guard_passes.
    pose proof (sync_wrapped_with_key l w k Hk Hne Hv') as E. cbn zeta in E.
    rewrite py_str_rendered in E.
    split; [|split; [|split; [|split]]].
    + apply issued_one. guard_passes. now rewrite E.
    + reflexivity.
    + apply lookup_delete_eq.
    + rewrite E. cbn. apply fn_lookup_insert.
    + intros l' Hne'. rewrite E. cbn. now apply fn_lookup_insert_ne.
  - intros l k u Hk Hne Hv.
    assert (Hv' : UsersApi.UserCreate_of_dict (w_store w l) = Some u).
    { unfold UsersApi.UserCreate_of_dict. rewrite Hk. cbn [default].
      now case_decide. }
    unfold UsersApi.sync. guard_passes.
    split; [apply issued_one; guard_passes|];
      rewrite (sync_wrapped_dict_model l w u Hv'); now rewrite sync_body_model.
  - intros u. unfold UsersApi.sync. guard_passes.
    split; [apply issued_one; guard_passes|]; now rewrite sync_wrapped_model.
Qed.

Lemma sync_pops_key_witness :
  exists body,
    issued (@UsersApi.sync echo_codec (SyncDict 0%nat)) bob_world
      = [ApiReq {| method := PUT;
                   url := "/v2/facts/proj/dev/users/bob";
                   params := None;
                   json := Some (JsonDict body) |}]
    /\ body = base.delete "key" bob_dict
    /\ body !! "key" = None
    /\ w_store (@UsersApi.sync echo_codec (SyncDict 0%nat) bob_world).2 0%nat
       = body
    /\ forall l', l' <> 0%nat ->
         w_store (@UsersApi.sync echo_codec (SyncDict 0%nat) bob_world).2 l'
         = w_store bob_world l'.
Proof.
  exact (proj1 (proj2 (@sync_pops_key echo_codec bob_world eq_refl))
           0%nat (PyStr "bob") eq_refl ltac:(discriminate) eq_refl).
Defined.

(** C7 fails as stated: a dictionary that is valid as a [UserCreate] keeps
    its ["key"] entry, and the body of the request is the model, key
    included. *)
Lemma sync_pops_key_counterexample :
  ~ (forall (w : World) (l : loc) (k : pyval),
       configured_level w = ENVIRONMENT_LEVEL_API_KEY ->
       w_store w l !! "key" = Some k -> k <> PyNone ->
       w_store (@UsersApi.sync echo_codec (SyncDict l) w).2 l !! "key" = None).
Proof.
  intros Hall.
  specialize (Hall alice_world 0%nat (PyStr "alice") eq_refl eq_refl
                ltac:(discriminate)).
  vm_compute in Hall. discriminate Hall.
Qed.

(** ** Aliases of get *)

Lemma ensure_context_idem {A} (call_level : ApiKeyLevel) (func : M A) (w : World) :
  ensure_context call_level (ensure_context call_level func) w
  = ensure_context call_level func w.
Proof.
  destruct (decide (configured_level w = call_level)) as [E|E].
  - now rewrite (ensure_context_match _ (ensure_context _ _)).
  - now rewrite !ensure_context_mismatch.
Qed.

(** C9. In [UsersApi], [TenantsApi] and [EnvironmentsApi], [get_by_key]
    and [get_by_id] do what [get] does on the same argument: the same
    request, the same result, the same state afterwards. *)
Theorem get_aliases_equal_get `{Codec} (w : World) :
  (forall self tenant_key,
     TenantsApi.get_by_key self tenant_key w = TenantsApi.get self tenant_key w
     /\ TenantsApi.get_by_id self tenant_key w = TenantsApi.get self tenant_key w)
  /\ (forall user_key,
        UsersApi.get_by_key user_key w = UsersApi.get user_key w
        /\ UsersApi.get_by_id user_key w = UsersApi.get user_key w)
  /\ (forall self project_key environment_key,
        EnvironmentsApi.get_by_key self project_key environment_key w
        = EnvironmentsApi.get self project_key environment_key w
        /\ EnvironmentsApi.get_by_id self project_key environment_key w
           = EnvironmentsApi.get self project_key environment_key w).
Proof.
  split; [|split]; intros; split.
  - unfold TenantsApi.get_by_key, TenantsApi.get_by_key_wrapped, TenantsApi.get.
    apply ensure_context_idem.
  - unfold TenantsApi.get_by_id, TenantsApi.get_by_id_wrapped, TenantsApi.get.
    apply ensure_context_idem.
  - unfold UsersApi.get_by_key, UsersApi.get_by_key_wrapped, UsersApi.get.
    apply ensure_context_idem.
  - unfold UsersApi.get_by_id, UsersApi.get_by_id_wrapped, UsersApi.get.
    apply ensure_context_idem.
  - unfold EnvironmentsApi.get_by_key, EnvironmentsApi.get_by_key_wrapped,
      EnvironmentsApi.get.
    apply ensure_context_idem.
  - unfold EnvironmentsApi.get_by_id, EnvironmentsApi.get_by_id_wrapped,
      EnvironmentsApi.get.
    apply ensure_context_idem.
Qed.

Lemma get_aliases_equal_get_witness :
  @UsersApi.get_by_key echo_codec "alice" (sample_world env_context)
  = @UsersApi.get echo_codec "alice" (sample_world env_context)
  /\ @UsersApi.get_by_id echo_codec "alice" (sample_world env_context)
     = @UsersApi.get echo_codec "alice" (sample_world env_context).
Proof.
  exact (proj1 (proj2 (@get_aliases_equal_get echo_codec
                         (sample_world env_context))) "alice").
Defined.

(** ** Where the base path comes from *)

Lemma segment_inj (a a' t t' : string) :
  slash_free a = true -> slash_free a' = true ->
  a ++ "/" ++ t = a' ++ "/" ++ t' -> a = a' /\ t = t'.
Proof.
  revert a'. induction a as [|c a IH]; intros [|c' a'] Ha Ha' E.
  - now injection E.
  - change (String "/" t = String c' (a' ++ "/" ++ t')) in E.
    injection E as <- _. discriminate Ha'.
  - change (String c (a ++ "/" ++ t) = String "/" t') in E.
    injection E as -> _. discriminate Ha.
  - change (String c (a ++ "/" ++ t) = String c' (a' ++ "/" ++ t')) in E.
    injection E as <- E. cbn in Ha, Ha'.
    destruct (Ascii.eqb c "/"%char); [discriminate|].
    destruct (IH a' Ha Ha' E) as [-> ->]. now split.
Qed.

Lemma facts_path_split (ctx : ApiContext) (resource path : string) :
  facts_path ctx resource ++ path
  = "/v2/facts/" ++ (rendered ctx).1 ++ "/" ++ (rendered ctx).2 ++ "/"
    ++ resource ++ path.
Proof. unfold facts_path, rendered. cbn [fst snd]. now rewrite !string_app_assoc. Qed.

Lemma facts_path_inj (ctx ctx' : ApiContext) (res res' path path' : string) :
  slash_free_context ctx = true -> slash_free_context ctx' = true ->
  facts_path ctx res ++ path = facts_path ctx' res' ++ path' ->
  rendered ctx = rendered ctx'.
Proof.
  unfold slash_free_context. intros [Hp He]%andb_prop [Hp' He']%andb_prop E.
  rewrite !facts_path_split in E.
  apply (inj (String.app "/v2/facts/")) in E.
  apply segment_inj in E as [E1 E]; [|assumption..].
  apply segment_inj in E as [E2 _]; [|assumption..].
  destruct (rendered ctx), (rendered ctx'). cbn in *. congruence.
Qed.

(** The URL of a request of [UsersApi] starts with the facts path of the
    configuration the call runs in. *)
Lemma users_url_form `{Codec} (c : UsersCall) (w : World) (r : ApiRequest) :
  configured_level w = ENVIRONMENT_LEVEL_API_KEY ->
  ApiReq r ∈ issued (invoke (OnUsers c)) w ->
  exists resource path,
    url r = facts_path (api_context (w_config w)) resource ++ path.
Proof.
  intros Hl Hin. destruct c.
  7: { match goal with x : sync_arg |- _ => destruct x as [u | l] end.
       - exists "users". eexists. pin_request Hin. reflexivity.
       - apply sync_dict_issued in Hin as (seg & body & ->); [|exact Hl].
         exists "users". eexists. reflexivity. }
  10: { exists "role_assignments". eexists. pin_request Hin. reflexivity. }
  all: exists "users"; eexists; pin_request Hin; reflexivity.
Qed.

(** The requests of a [TenantsApi] object do not depend on the world they
    are issued in. *)
Lemma tenants_issued_fixed `{Codec} (self : TenantsApi.t) (c : TenantsCall)
    (w w' : World) :
  configured_level w = ENVIRONMENT_LEVEL_API_KEY ->
  configured_level w' = ENVIRONMENT_LEVEL_API_KEY ->
  issued (invoke (OnTenants self c)) w' = issued (invoke (OnTenants self c)) w.
Proof.
  intros Hl Hl'.
  destruct c; (etransitivity; [|symmetry]);
    (apply issued_one; sent_by_running).
Qed.

Lemma facts_path_resource (ctx : ApiContext) (resource path : string) :
  facts_path ctx resource ++ path = facts_path ctx "" ++ resource ++ path.
Proof. now rewrite !facts_path_split. Qed.

(** C8. [TenantsApi] takes its base path from the [api_context] once, when
    it is constructed; [UsersApi] takes it from the current [api_context]
    at every call.  After the context of the configuration is replaced, an
    existing [TenantsApi] object issues the requests it issued before, under
    the path of the context it was built in, while every request of
    [UsersApi] goes under the path of the new context, to a URL other than
    before whenever the project or environment differs. *)
Theorem tenants_path_fixed_users_path_follows `{Codec} (w0 : World)
    (self : TenantsApi.t) (w : World) (ctx : ApiContext) :
  TenantsApi.__init__ w0 = (Return self, w0) ->
  configured_level w = ENVIRONMENT_LEVEL_API_KEY ->
  api_key_level ctx = ENVIRONMENT_LEVEL_API_KEY ->
  (forall c,
     issued (invoke (OnTenants self c)) (reconfigure ctx w)
     = issued (invoke (OnTenants self c)) w
     /\ forall r,
          ApiReq r ∈ issued (invoke (OnTenants self c)) (reconfigure ctx w) ->
          String.prefix (facts_path (api_context (w_config w0)) "tenants")
            (url r) = true)
  /\ (forall c r,
        ApiReq r ∈ issued (invoke (OnUsers c)) (reconfigure ctx w) ->
        String.prefix (facts_path ctx "") (url r) = true)
  /\ (forall c r r',
        slash_free_context (api_context (w_config w)) = true ->
        slash_free_context ctx = true ->
        rendered ctx <> rendered (api_context (w_config w)) ->
        ApiReq r ∈ issued (invoke (OnUsers c)) w ->
        ApiReq r' ∈ issued (invoke (OnUsers c)) (reconfigure ctx w) ->
        url r' <> url r).
Proof.
  intros Hinit Hl Hctx.
  assert (Hl' : configured_level (reconfigure ctx w) = ENVIRONMENT_LEVEL_API_KEY)
    by exact Hctx.
  split; [|split].
  - intros c. split; [now apply tenants_issued_fixed|].
    intros r Hin.
    destruct (tenants_url_form self c _ r Hl' Hin) as [path ->].
    rewrite (TenantsApi_init_inv w0 self Hinit). apply prefix_app.
  - intros c r Hin.
    destruct (users_url_form c _ r Hl' Hin) as (res & path & ->).
    cbn [reconfigure w_config set_api_context api_context].
    rewrite facts_path_resource. apply prefix_app.
  - intros c r r' Hsf Hsf' Hne Hin Hin' E.
    destruct (users_url_form c _ r Hl Hin) as (res & path & Hr).
    destruct (users_url_form c _ r' Hl' Hin') as (res' & path' & Hr').
    cbn [reconfigure w_config set_api_context api_context] in Hr'.
    rewrite Hr, Hr' in E.
    now apply facts_path_inj in E.
Qed.

Lemma tenants_path_fixed_users_path_follows_witness :
  (forall c,
     issued (@invoke echo_codec (OnTenants sample_tenants c))
       (reconfigure other_context (sample_world env_context))
     = issued (@invoke echo_codec (OnTenants sample_tenants c))
         (sample_world env_context)
     /\ forall r,
          ApiReq r ∈ issued (@invoke echo_codec (OnTenants sample_tenants c))
                       (reconfigure other_context (sample_world env_context)) ->
          String.prefix
            (facts_path (api_context (w_config (sample_world env_context)))
               "tenants")
            (url r) = true)
  /\ (forall c r,
        ApiReq r ∈ issued (@invoke echo_codec (OnUsers c))
                     (reconfigure other_context (sample_world env_context)) ->
        String.prefix (facts_path other_context "") (url r) = true)
  /\ (forall c r r',
        slash_free_context (api_context (w_config (sample_world env_context)))
        = true ->
        slash_free_context other_context = true ->
        rendered other_context
        <> rendered (api_context (w_config (sample_world env_context))) ->
        ApiReq r ∈ issued (@invoke echo_codec (OnUsers c))
                     (sample_world env_context) ->
        ApiReq r' ∈ issued (@invoke echo_codec (OnUsers c))
                      (reconfigure other_context (sample_world env_context)) ->
        url r' <> url r).
Proof.
  apply (@tenants_path_fixed_users_path_follows echo_codec
           (sample_world env_context) sample_tenants
           (sample_world env_context) other_context); reflexivity.
Defined.

(** C8 fails as stated: a change of the context that moves a slash from
    the project to the environment leaves the URLs of [UsersApi] as they
    were. *)
Lemma tenants_path_fixed_users_path_follows_counterexample :
  ~ (forall (w : World) (ctx : ApiContext) (c : UsersCall) (r r' : ApiRequest),
       configured_level w = ENVIRONMENT_LEVEL_API_KEY ->
       api_key_level ctx = ENVIRONMENT_LEVEL_API_KEY ->
       ctx <> api_context (w_config w) ->
       ApiReq r ∈ issued (@invoke echo_codec (OnUsers c)) w ->
       ApiReq r' ∈ issued (@invoke echo_codec (OnUsers c)) (reconfigure ctx w) ->
       url r' <> url r).
Proof.
  intros Hall.
  pose (r := {| method := GET; url := "/v2/facts/a/b/c/users/alice";
                params := None; json := None |}).
  apply (Hall (sample_world nested_context) shifted_context (Users_get "alice")
              r r eq_refl eq_refl).
  - discriminate.
  - rewrite (issued_one _ _ (ApiReq r)); [apply list_elem_of_here | reflexivity].
  - rewrite (issued_one _ _ (ApiReq r)); [apply list_elem_of_here | reflexivity].
  - reflexivity.
Qed.

(** * Further properties of the endpoints *)

(** ** UsersApi.sync uses the key up *)

Lemma sync_dict_leaves_no_key `{Codec} (l : loc) (w : World) :
  configured_level w = ENVIRONMENT_LEVEL_API_KEY ->
  UsersApi.UserCreate_of_dict (w_store w l) = None ->
  w_store (UsersApi.sync (SyncDict l) w).2 l !! "key" = None
  /\ w_config (UsersApi.sync (SyncDict l) w).2 = w_config w.
Proof.
  intros Hl Hv. unfold UsersApi.sync. guard_passes.
  destruct (decide (default PyNone (w_store w l !! "key") = PyNone)) as [Hk|Hk].
  - rewrite (sync_wrapped_without_key l w Hk). cbn.
    rewrite fn_lookup_insert. split; [apply lookup_delete_eq | reflexivity].
  - destruct (w_store w l !! "key") as [k|] eqn:Ek; [|contradiction].
    rewrite (sync_wrapped_with_key l w k Ek Hk Hv). cbn.
    rewrite fn_lookup_insert. split; [apply lookup_delete_eq | reflexivity].
Qed.

(** X1. Once the guard has passed, [UsersApi.sync] on a dictionary that
    reaches its body (one that is not valid as a [UserCreate]) leaves the
    caller's dictionary without a ["key"] entry whether the call returns or
    raises, so a second [sync] on the same dictionary raises [KeyError] and
    issues no request.  A dictionary that is valid as a [UserCreate] is left
    as it is, and a second [sync] on it sends the same request again. *)
Theorem sync_twice_raises `{Codec} (l : loc) (w : World) :
  configured_level w = ENVIRONMENT_LEVEL_API_KEY ->
  (UsersApi.UserCreate_of_dict (w_store w l) = None ->
   w_store (UsersApi.sync (SyncDict l) w).2 l !! "key" = None
   /\ outcome (UsersApi.sync (SyncDict l)) (UsersApi.sync (SyncDict l) w).2
      = Raise (KeyError "required 'key' in input dictionary")
   /\ issued (UsersApi.sync (SyncDict l)) (UsersApi.sync (SyncDict l) w).2
      = [])
  /\ (forall u,
        UsersApi.UserCreate_of_dict (w_store w l) = Some u ->
        w_store (UsersApi.sync (SyncDict l) w).2 = w_store w
        /\ issued (UsersApi.sync (SyncDict l)) (UsersApi.sync (SyncDict l) w).2
           = issued (UsersApi.sync (SyncDict l)) w
        /\ issued (UsersApi.sync (SyncDict l)) w
           = [ApiReq {| method := PUT;
                        url := facts_path (api_context (w_config w)) "users"
                               ++ "/" ++ UserCreate_key u;
                        params := None;
                        json := Some (JsonUserCreate u) |}]).
Proof.
  intros Hl. split.
  - intros Hv. destruct (sync_dict_leaves_no_key l w Hl Hv) as [Hk Hc].
    split; [exact Hk|].
    set (w1 := (UsersApi.sync (SyncDict l) w).2) in *.
    assert (Hl1 : configured_level w1 = ENVIRONMENT_LEVEL_API_KEY)
      by (unfold configured_level in *; now rewrite Hc).
    assert (Hk1 : default PyNone (w_store w1 l !! "key") = PyNone)
      by now rewrite Hk.
    unfold outcome, UsersApi.sync. guard_passes.
    split.
    + now rewrite (sync_wrapped_without_key l w1 Hk1).
    + apply issued_nil. guard_passes.
      now rewrite (sync_wrapped_without_key l w1 Hk1).
  - intros u Hv.
    assert (E : UsersApi.sync (SyncDict l) w
                = UsersApi.sync_body (SyncModel u) w).
    { unfold UsersApi.sync. guard_passes.
      apply (sync_wrapped_dict_model l w u Hv). }
    rewrite E, sync_body_model. cbn zeta. cbn [snd after_request w_store].
    split; [reflexivity|].
    set (r := ApiReq _).
    assert (Hi : issued (UsersApi.sync (SyncDict l)) w = [r]).
    { apply issued_one. now rewrite E, sync_body_model. }
    split; [|exact Hi]. rewrite Hi. apply issued_one.
    unfold UsersApi.sync. rewrite ensure_context_match by exact Hl.
    rewrite (sync_wrapped_dict_model l (after_request r w) u Hv).
    now rewrite sync_body_model.
Qed.

Lemma sync_twice_raises_witness :
  w_store (@UsersApi.sync echo_codec (SyncDict 0%nat) bob_world).2 0%nat
    !! "key" = None
  /\ outcome (@UsersApi.sync echo_codec (SyncDict 0%nat))
       (@UsersApi.sync echo_codec (SyncDict 0%nat) bob_world).2
     = Raise (KeyError "required 'key' in input dictionary")
  /\ issued (@UsersApi.sync echo_codec (SyncDict 0%nat))
       (@UsersApi.sync echo_codec (SyncDict 0%nat) bob_world).2 = [].
Proof.
  exact (proj1 (@sync_twice_raises echo_codec 0%nat bob_world eq_refl) eq_refl).
Defined.

(** ** Role assignments *)

(** X2. [assign_role] and [unassign_role] put the [user] of the assignment
    in the path and send the other fields as the body: the body has no
    ["user"] and agrees with [assignment.dict()] on every other key.  The
    two calls address the same URL with the same body, by POST and by
    DELETE. *)
Theorem role_assignment_requests `{Codec} (a : RoleAssignment) (w : World) :
  configured_level w = ENVIRONMENT_LEVEL_API_KEY ->
  exists u body,
    issued (UsersApi.assign_role a) w
      = [ApiReq {| method := POST; url := u; params := None;
                   json := Some (JsonDict body) |}]
    /\ issued (UsersApi.unassign_role a) w
       = [ApiReq {| method := DELETE; url := u; params := None;
                    json := Some (JsonDict body) |}]
    /\ u = facts_path (api_context (w_config w)) "users"
           ++ "/" ++ RoleAssignment_user a ++ "/roles"
    /\ body !! "user" = None
    /\ forall k, k <> "user" -> body !! k = RoleAssignment_dict a !! k.
Proof.
  intros Hl. do 2 eexists.
  split; [apply issued_one; unfold UsersApi.assign_role; guard_passes;
          run_methods; reflexivity|].
  split; [apply issued_one; unfold UsersApi.unassign_role; guard_passes;
          run_methods; reflexivity|].
  split; [reflexivity|].
  unfold RoleAssignment_dict_exclude_user. split.
  - apply lookup_delete_eq.
  - intros k Hk. now apply lookup_delete_ne.
Qed.

Lemma role_assignment_requests_witness :
  exists u body,
    issued (@UsersApi.assign_role echo_codec sample_assignment)
      (sample_world env_context)
      = [ApiReq {| method := POST; url := u; params := None;
                   json := Some (JsonDict body) |}]
    /\ issued (@UsersApi.unassign_role echo_codec sample_assignment)
         (sample_world env_context)
       = [ApiReq {| method := DELETE; url := u; params := None;
                    json := Some (JsonDict body) |}]
    /\ u = facts_path (api_context (w_config (sample_world env_context))) "users"
           ++ "/" ++ RoleAssignment_user sample_assignment ++ "/roles"
    /\ body !! "user" = None
    /\ forall k, k <> "user" -> body !! k = RoleAssignment_dict sample_assignment !! k.
Proof.
  exact (@role_assignment_requests echo_codec sample_assignment
           (sample_world env_context) eq_refl).
Defined.

(** X3. The query of [get_assigned_roles] holds exactly the page, the page
    size, the user, and the tenant when one is given: without a tenant
    argument no ["tenant"] parameter is sent, and no other parameter is
    ever sent. *)
Theorem assigned_roles_query `{Codec} (user : string) (tenant : option string)
    (page per_page : Z) (w : World) :
  configured_level w = ENVIRONMENT_LEVEL_API_KEY ->
  exists ps,
    issued (UsersApi.get_assigned_roles user tenant page per_page) w
      = [ApiReq {| method := GET;
                   url := facts_path (api_context (w_config w))
                            "role_assignments";
                   params := Some ps; json := None |}]
    /\ ps !! "user" = Some (PyStr user)
    /\ ps !! "tenant" = PyStr <$> tenant
    /\ ps !! "page" = Some (PyInt page)
    /\ ps !! "per_page" = Some (PyInt per_page)
    /\ forall k, k <> "user" -> k <> "tenant" -> k <> "page" ->
                 k <> "per_page" -> ps !! k = None.
Proof.
  intros Hl. eexists.
  split.
  { erewrite issued_one;
      [|unfold UsersApi.get_assigned_roles; guard_passes; run_methods;
        reflexivity].
    cbn [base_url]. rewrite string_app_nil_r. reflexivity. }
  unfold pagination_params.
  destruct tenant as [t|]; cbn [fmap option_fmap option_map];
    repeat split; intros;
    repeat first [ rewrite lookup_insert_eq | rewrite lookup_insert_ne by congruence
                 | rewrite lookup_singleton_eq
                 | rewrite lookup_singleton_ne by congruence ];
    try reflexivity.
Qed.

Lemma assigned_roles_query_witness :
  exists ps,
    issued (@UsersApi.get_assigned_roles echo_codec "alice" None 2 50)
      (sample_world env_context)
      = [ApiReq {| method := GET;
                   url := facts_path
                            (api_context (w_config (sample_world env_context)))
                            "role_assignments";
                   params := Some ps; json := None |}]
    /\ ps !! "user" = Some (PyStr "alice")
    /\ ps !! "tenant" = PyStr <$> None
    /\ ps !! "page" = Some (PyInt 2)
    /\ ps !! "per_page" = Some (PyInt 50)
    /\ forall k, k <> "user" -> k <> "tenant" -> k <> "page" ->
                 k <> "per_page" -> ps !! k = None.
Proof.
  exact (@assigned_roles_query echo_codec "alice" None 2 50
           (sample_world env_context) eq_refl).
Defined.

(** ** The generated endpoints *)

(** X4. In [create_resource], a [permit_session] argument becomes the
    cookie of that name, replacing one the client may hold, and leaves
    every other cookie of the client as it is; without the argument the
    cookies are the client's.  Nothing else of the request depends on the
    argument. *)
Theorem permit_session_cookie (proj_id env_id : string) (client : Client)
    (json_body : Model) (permit_session : option string) :
  kw_cookies (create_resource._get_kwargs proj_id env_id client json_body None)
    = get_cookies client
  /\ (forall s,
        permit_session = Some s ->
        kw_cookies (create_resource._get_kwargs proj_id env_id client json_body
                      permit_session) !! "permit_session" = Some s)
  /\ (forall k,
        k <> "permit_session" ->
        kw_cookies (create_resource._get_kwargs proj_id env_id client json_body
                      permit_session) !! k = get_cookies client !! k)
  /\ (let kw := create_resource._get_kwargs proj_id env_id client json_body
                  permit_session in
      let kw0 := create_resource._get_kwargs proj_id env_id client json_body
                   None in
      kw_method kw = kw_method kw0 /\ kw_url kw = kw_url kw0
      /\ kw_headers kw = kw_headers kw0 /\ kw_timeout kw = kw_timeout kw0
      /\ kw_json kw = kw_json kw0).
Proof.
  split; [reflexivity|]. split; [|split].
  - intros s ->. cbn. apply lookup_insert_eq.
  - intros k Hk. destruct permit_session as [s|]; cbn; [|reflexivity].
    now apply lookup_insert_ne.
  - cbn. now repeat split.
Qed.

Lemma permit_session_cookie_witness :
  kw_cookies (create_resource._get_kwargs "proj" "dev" sample_client
                {| model_fields := ∅ |} (Some "new")) !! "permit_session"
  = Some "new".
Proof.
  exact (proj1 (proj2 (permit_session_cookie "proj" "dev" sample_client
                         {| model_fields := ∅ |} (Some "new"))) "new" eq_refl).
Defined.

Section generated_endpoints.
Context `{Codec}.

Lemma get_data_for_user_parse_none_iff (response : Response) :
  get_data_for_user._parse_response response = Return None
  <-> status_code response <> 200 /\ status_code response <> 422.
Proof.
  unfold get_data_for_user._parse_response. split.
  - intros E. repeat case_decide; try (now split).
    all: destruct (response_json response) as [j|]; cbn in E; try discriminate;
      destruct (parse_obj _ j); discriminate.
  - intros [H200 H422]. now repeat (case_decide; [contradiction|]).
Qed.

Lemma create_resource_parse_none_iff (response : Response) :
  create_resource._parse_response response = Return None
  <-> status_code response <> 200 /\ status_code response <> 422.
Proof.
  unfold create_resource._parse_response. split.
  - intros E. repeat case_decide; try (now split).
    all: destruct (response_json response) as [j|]; cbn in E; try discriminate;
      destruct (parse_obj _ j); discriminate.
  - intros [H200 H422]. now repeat (case_decide; [contradiction|]).
Qed.

(** What [sync] and [asyncio] return is what [_parse_response] gives for
    the response to their request. *)
Lemma get_data_for_user_sync_outcome (o p e u : string) (cl : Client) (w : World) :
  outcome (get_data_for_user.sync o p e u cl) w
  = get_data_for_user._parse_response
      (w_remote w (get_data_for_user_request o p e u cl))
  /\ outcome (get_data_for_user.asyncio o p e u cl) w
     = get_data_for_user._parse_response
         (w_remote w (get_data_for_user_request o p e u cl)).
Proof.
  unfold outcome, get_data_for_user.sync, get_data_for_user.asyncio,
    get_data_for_user.sync_detailed, get_data_for_user.asyncio_detailed,
    get_data_for_user._build_response, get_data_for_user_request,
    httpx_request, AsyncClient_request, bind, send, lift, ret. cbn.
  split;
    match goal with
    | |- context [get_data_for_user._parse_response ?r] =>
        destruct (get_data_for_user._parse_response r)
    end; reflexivity.
Qed.

Lemma create_resource_sync_outcome (p e : string) (cl : Client) (b : Model)
    (s : option string) (w : World) :
  outcome (create_resource.sync p e cl b s) w
  = create_resource._parse_response
      (w_remote w (create_resource_request p e cl b s))
  /\ outcome (create_resource.asyncio p e cl b s) w
     = create_resource._parse_response
         (w_remote w (create_resource_request p e cl b s)).
Proof.
  unfold outcome, create_resource.sync, create_resource.asyncio,
    create_resource.sync_detailed, create_resource.asyncio_detailed,
    create_resource._build_response, create_resource_request,
    httpx_request, AsyncClient_request, bind, send, lift, ret. cbn.
  split;
    match goal with
    | |- context [create_resource._parse_response ?r] =>
        destruct (create_resource._parse_response r)
    end; reflexivity.
Qed.

(** X5. [sync] and [asyncio] of both generated modules return [None]
    exactly when the status of the response is neither 200 nor 422: on
    those two statuses they return a model or raise, never [None]. *)
Theorem openapi_none_iff_other_status (w : World) :
  (forall o p e u cl,
     let status := status_code (w_remote w (get_data_for_user_request o p e u cl)) in
     (outcome (get_data_for_user.sync o p e u cl) w = Return None
      <-> status <> 200 /\ status <> 422)
     /\ (outcome (get_data_for_user.asyncio o p e u cl) w = Return None
         <-> status <> 200 /\ status <> 422))
  /\ (forall p e cl b s,
        let status := status_code (w_remote w (create_resource_request p e cl b s)) in
        (outcome (create_resource.sync p e cl b s) w = Return None
         <-> status <> 200 /\ status <> 422)
        /\ (outcome (create_resource.asyncio p e cl b s) w = Return None
            <-> status <> 200 /\ status <> 422)).
Proof.
  split.
  - intros o p e u cl status.
    destruct (get_data_for_user_sync_outcome o p e u cl w) as [-> ->].
    split; apply get_data_for_user_parse_none_iff.
  - intros p e cl b s status.
    destruct (create_resource_sync_outcome p e cl b s w) as [-> ->].
    split; apply create_resource_parse_none_iff.
Qed.



End generated_endpoints.

Lemma openapi_none_iff_other_status_witness :
  outcome (@get_data_for_user.sync echo_codec "org" "proj" "dev" "alice"
             sample_client)
    (sample_world env_context) <> Return None.
Proof.
  intros E.
  apply (proj1 (proj1 (@openapi_none_iff_other_status echo_codec
                         (sample_world env_context))
                  "org" "proj" "dev" "alice" sample_client)) in E.
  destruct E as [E _]. now apply E.
Defined.


(** ** URLs and identifiers *)

Lemma segment_tail_inj (a a' t t' : string) :
  slash_free a = true -> slash_free a' = true ->
  a ++ String "/" t = a' ++ String "/" t' -> a = a' /\ t = t'.
Proof. apply segment_inj. Qed.

Lemma string_length_app (a b : string) :
  String.length (a ++ b) = (String.length a + String.length b)%nat.
Proof.
  induction a as [|x a IH]; [reflexivity|].
  change (S (String.length (a ++ b)) = S (String.length a + String.length b)).
  now f_equal.
Qed.

Lemma string_app_inj_r (a b c : string) : a ++ c = b ++ c -> a = b.
Proof.
  revert b. induction a as [|x a IH]; intros [|y b] E.
  - reflexivity.
  - apply (f_equal String.length) in E.
    rewrite !string_length_app in E. cbn [String.length] in E. lia.
  - apply (f_equal String.length) in E.
    rewrite !string_length_app in E. cbn [String.length] in E. lia.
  - change (String x (a ++ c) = String y (b ++ c)) in E.
    injection E as -> E. f_equal. now apply IH.
Qed.

(** X7. The URL of [get_data_for_user] determines its four identifiers, and
    the URL of [create_resource] its two, as long as the identifiers before
    the last hold no slash: two calls on one client with different
    identifiers never address the same URL. *)
Theorem openapi_url_determines_ids (client : Client) :
  (forall o p e u o' p' e' u',
     slash_free o && slash_free p && slash_free e = true ->
     slash_free o' && slash_free p' && slash_free e' = true ->
     kw_url (get_data_for_user._get_kwargs o p e u client)
     = kw_url (get_data_for_user._get_kwargs o' p' e' u' client) ->
     o = o' /\ p = p' /\ e = e' /\ u = u')
  /\ (forall p e b s p' e' b' s',
        slash_free p = true -> slash_free p' = true ->
        kw_url (create_resource._get_kwargs p e client b s)
        = kw_url (create_resource._get_kwargs p' e' client b' s') ->
        p = p' /\ e = e').
Proof.
  split.
  - intros o p e u o' p' e' u'
      [[Ho Hp]%andb_prop He]%andb_prop [[Ho' Hp']%andb_prop He']%andb_prop E.
    cbn [kw_url get_data_for_user._get_kwargs] in E.
    apply (inj (String.app (client_base_url client))) in E.
    apply (inj (String.app "/v2/internal/opal_data/")) in E.
    apply segment_inj in E as [-> E]; [|assumption..].
    apply segment_inj in E as [-> E]; [|assumption..].
    apply segment_tail_inj in E as [-> E]; [|assumption..].
    apply (inj (String.app "users/")) in E. now subst.
  - intros p e b s p' e' b' s' Hp Hp' E.
    cbn [kw_url create_resource._get_kwargs] in E.
    apply (inj (String.app (client_base_url client))) in E.
    apply (inj (String.app "/v2/schema/")) in E.
    apply segment_inj in E as [-> E]; [|assumption..].
    apply string_app_inj_r in E. now split.
Qed.

Lemma openapi_url_determines_ids_witness :
  ("org" = "org" /\ "proj" = "proj" /\ "dev" = "dev" /\ "alice" = "alice")
  /\ ("proj" = "proj" /\ "dev/eu" = "dev/eu").
Proof.
  split.
  - exact (proj1 (openapi_url_determines_ids sample_client)
             "org" "proj" "dev" "alice" "org" "proj" "dev" "alice"
             eq_refl eq_refl eq_refl).
  - exact (proj2 (openapi_url_determines_ids sample_client)
             "proj" "dev/eu" {| model_fields := ∅ |} None
             "proj" "dev/eu" {| model_fields := ∅ |} (Some "s")
             eq_refl eq_refl eq_refl).
Defined.

(** Identifiers with a slash can collide. *)
Example openapi_url_collision :
  kw_url (get_data_for_user._get_kwargs "a/b" "c" "dev" "alice" sample_client)
  = kw_url (get_data_for_user._get_kwargs "a" "b/c" "dev" "alice" sample_client).
Proof. reflexivity. Qed.

(** ** What the resource API classes read from the configuration *)

(** X8. [EnvironmentsApi] takes the project and the environment from the
    arguments of the call alone: with the guard passed, an object issues the
    same request in every world, whatever project and environment the
    configuration holds. *)
Theorem environments_ignore_context `{Codec} (self : EnvironmentsApi.t)
    (c : EnvironmentsCall) (w w' : World) :
  configured_level w = PROJECT_LEVEL_API_KEY ->
  configured_level w' = PROJECT_LEVEL_API_KEY ->
  issued (invoke (OnEnvironments self c)) w'
  = issued (invoke (OnEnvironments self c)) w.
Proof.
  intros Hl Hl'.
  destruct c; (etransitivity; [|symmetry]);
    (apply issued_one; sent_by_running).
Qed.

Lemma environments_ignore_context_witness :
  issued (@invoke echo_codec
            (OnEnvironments sample_environments (Environments_get "proj" "dev")))
    (reconfigure {| api_key_level := PROJECT_LEVEL_API_KEY;
                    project := Some "elsewhere"; environment := None |}
       (sample_world project_context))
  = issued (@invoke echo_codec
              (OnEnvironments sample_environments (Environments_get "proj" "dev")))
      (sample_world project_context).
Proof.
  apply (@environments_ignore_context echo_codec); reflexivity.
Defined.

(** X9. No endpoint method changes the configuration or the remote
    service, and none changes a dictionary of the caller, except
    [UsersApi.sync] on the dictionary it is given; the requests issued
    before stay in the log. *)
Theorem endpoints_frame `{Codec} (c : Call) (w : World) :
  w_config (invoke c w).2 = w_config w
  /\ w_remote (invoke c w).2 = w_remote w
  /\ (forall l, c <> OnUsers (Users_sync (SyncDict l)) ->
                w_store (invoke c w).2 l = w_store w l)
  /\ exists rs, w_sent (invoke c w).2 = (w_sent w ++ rs)%list.
Proof.
  destruct (decide (configured_level w = call_level c)) as [Hl|Hl].
  - destruct (sync_without_key c w) eqn:Hs.
    + destruct c as [? c|c|? c]; try discriminate; destruct c;
        try discriminate.
      match goal with x : sync_arg |- _ => destruct x as [u|l0] end;
        try discriminate.
      cbn in Hs, Hl. apply bool_decide_eq_true in Hs.
      cbn [invoke]. unfold UsersApi.sync. guard_passes.
      rewrite (sync_wrapped_without_key l0 w Hs). cbn.
      repeat split.
      * intros l Hne. apply fn_lookup_insert_ne. congruence.
      * exists []. now rewrite app_nil_r.
    + destruct (invoke_shape c w Hl Hs) as (r & Hrun).
      rewrite (Hrun w eq_refl (fun _ => eq_refl)). cbn.
      assert (Hc : w_config (locally_changed c w) = w_config w
                   /\ w_remote (locally_changed c w) = w_remote w
                   /\ w_sent (locally_changed c w) = w_sent w
                   /\ forall l, c <> OnUsers (Users_sync (SyncDict l)) ->
                                w_store (locally_changed c w) l = w_store w l).
      { destruct c as [? c|c|? c]; try (now repeat split).
        destruct c; try (now repeat split).
        match goal with x : sync_arg |- _ => destruct x as [u|l0] end;
          try (now repeat split).
        cbn [locally_changed].
        destruct (UsersApi.UserCreate_of_dict (w_store w l0));
          [now repeat split|].
        cbn. repeat split. intros l Hne. apply fn_lookup_insert_ne. congruence. }
      destruct Hc as (-> & -> & -> & Hst).
      repeat split; [exact Hst|]. now eexists.
  - rewrite invoke_guarded, ensure_context_mismatch by assumption. cbn.
    repeat split. exists []. now rewrite app_nil_r.
Qed.

(** ** One resource, several verbs *)

(** X10. Within one class the methods on one key address one URL: [get],
    [update] and [delete] of a user (and [sync] of a model with that key),
    of a tenant, and of an environment differ in the HTTP method and the
    body, not in the URL. *)
Theorem one_url_per_resource `{Codec} (w : World) :
  (configured_level w = ENVIRONMENT_LEVEL_API_KEY ->
   forall (k : string) (d : Model) (fields : dict) (self : TenantsApi.t),
     let u := facts_path (api_context (w_config w)) "users" ++ "/" ++ k in
     let t := base_url (TenantsApi.__tenants self) ++ "/" ++ k in
     issued (UsersApi.get k) w
       = [ApiReq {| method := GET; url := u; params := None; json := None |}]
     /\ issued (UsersApi.update k d) w
        = [ApiReq {| method := PATCH; url := u; params := None;
                     json := Some (JsonModel d) |}]
     /\ issued (UsersApi.delete k) w
        = [ApiReq {| method := DELETE; url := u; params := None; json := None |}]
     /\ issued (UsersApi.sync
                  (SyncModel {| UserCreate_key := k; UserCreate_fields := fields |})) w
        = [ApiReq {| method := PUT; url := u; params := None;
                     json := Some (JsonUserCreate
                                     {| UserCreate_key := k;
                                        UserCreate_fields := fields |}) |}]
     /\ issued (TenantsApi.get self k) w
        = [ApiReq {| method := GET; url := t; params := None; json := None |}]
     /\ issued (TenantsApi.update self k d) w
        = [ApiReq {| method := PATCH; url := t; params := None;
                     json := Some (JsonDict (Model_dict d)) |}]
     /\ issued (TenantsApi.delete self k) w
        = [ApiReq {| method := DELETE; url := t; params := None; json := None |}])
  /\ (configured_level w = PROJECT_LEVEL_API_KEY ->
      forall (p e : string) (d : Model) (self : EnvironmentsApi.t),
        let u := base_url (EnvironmentsApi.__environments self)
                 ++ "/v2/projects/" ++ p ++ "/envs/" ++ e in
        issued (EnvironmentsApi.get self p e) w
          = [ApiReq {| method := GET; url := u; params := None; json := None |}]
        /\ issued (EnvironmentsApi.update self p e d) w
           = [ApiReq {| method := PATCH; url := u; params := None;
                        json := Some (JsonModel d) |}]
        /\ issued (EnvironmentsApi.delete self p e) w
           = [ApiReq {| method := DELETE; url := u; params := None;
                        json := None |}]).
Proof.
  split; intros Hl; intros; repeat split; apply issued_one.
  all: try (unfold UsersApi.sync; guard_passes; now rewrite sync_wrapped_model).
  all: unfold UsersApi.get, UsersApi.update, UsersApi.delete, TenantsApi.get,
         TenantsApi.update, TenantsApi.delete, EnvironmentsApi.get,
         EnvironmentsApi.update, EnvironmentsApi.delete;
       guard_passes; run_methods; reflexivity.
Qed.

Lemma one_url_per_resource_witness :
  issued (@UsersApi.get echo_codec "alice") (sample_world env_context)
    = [ApiReq {| method := GET;
                 url := facts_path
                          (api_context (w_config (sample_world env_context)))
                          "users" ++ "/" ++ "alice";
                 params := None; json := None |}]
  /\ issued (@UsersApi.delete echo_codec "alice") (sample_world env_context)
     = [ApiReq {| method := DELETE;
                  url := facts_path
                           (api_context (w_config (sample_world env_context)))
                           "users" ++ "/" ++ "alice";
                  params := None; json := None |}].
Proof.
  destruct (proj1 (@one_url_per_resource echo_codec (sample_world env_context))
              eq_refl "alice" {| model_fields := ∅ |} ∅ sample_tenants)
    as (Hget & _ & Hdel & _).
  split; [exact Hget | exact Hdel].
Defined.

(** ** Keys go into the path as they are *)

(** X11. A key is put into the path without escaping, so a key that holds
    a slash reaches another endpoint: deleting the tenant [k/users/u] is
    deleting user [u] from tenant [k], and getting the environment
    [e/stats] sends the request of [get_stats] on [e]. *)
Theorem keys_not_escaped `{Codec} (w : World) :
  (forall self k u,
     TenantsApi.delete self (k ++ "/users/" ++ u) w
     = TenantsApi.delete_tenant_user self k u w)
  /\ (forall self p e,
        issued (EnvironmentsApi.get self p (e ++ "/stats")) w
        = issued (EnvironmentsApi.get_stats self p e) w).
Proof.
  split.
  - intros self k u. reflexivity.
  - intros self p e. unfold EnvironmentsApi.get, EnvironmentsApi.get_stats.
    destruct (decide (configured_level w = PROJECT_LEVEL_API_KEY)) as [Hl|Hl].
    + (etransitivity; [|symmetry]);
        (apply issued_one; guard_passes; run_methods; reflexivity).
    + (etransitivity; [|symmetry]);
        (apply issued_nil; now rewrite ensure_context_mismatch).
Qed.

(** ** Bodies and queries *)

(** X12. In every request of the resource API classes, a GET carries no
    body, and only a GET carries query parameters. *)
Theorem get_has_no_body `{Codec} (c : Call) (w : World) (r : ApiRequest) :
  configured_level w = call_level c ->
  ApiReq r ∈ issued (invoke c) w ->
  (method r = GET -> json r = None)
  /\ (method r <> GET -> params r = None).
Proof.
  intros Hl Hin.
  destruct c as [self c | c | self c]; destruct c; cbn in Hl.
  all: try (pin_request Hin; cbn [method json params]; split; intros;
            first [reflexivity | congruence | discriminate]).
  match goal with x : sync_arg |- _ => destruct x as [u | l] end.
  - pin_request Hin. cbn [method json params]. split; [discriminate|reflexivity].
  - apply sync_dict_issued in Hin as (seg & body & ->); [|exact Hl].
    cbn [method json params]. split; [discriminate|reflexivity].
Qed.

Lemma get_has_no_body_witness :
  (method sample_tenant_request = GET -> json sample_tenant_request = None)
  /\ (method sample_tenant_request <> GET -> params sample_tenant_request = None).
Proof.
  apply (@get_has_no_body echo_codec
           (OnTenants sample_tenants (Tenants_get "acme"))
           (sample_world env_context) sample_tenant_request).
  - reflexivity.
  - rewrite (issued_one _ _ (ApiReq sample_tenant_request)).
    + apply list_elem_of_here.
    + reflexivity.
Defined.

(** ** Keys and URLs *)

(** X13. In one configuration, [UsersApi.get] on two different keys, or
    [TenantsApi.get] of one object on two different keys, never address the
    same URL; the same holds for [EnvironmentsApi.get] when the project
    keys hold no slash. *)
Theorem get_url_determines_key `{Codec} (w : World) :
  (configured_level w = ENVIRONMENT_LEVEL_API_KEY ->
   forall self k k' r r',
     (ApiReq r ∈ issued (UsersApi.get k) w ->
      ApiReq r' ∈ issued (UsersApi.get k') w ->
      url r = url r' -> k = k')
     /\ (ApiReq r ∈ issued (TenantsApi.get self k) w ->
         ApiReq r' ∈ issued (TenantsApi.get self k') w ->
         url r = url r' -> k = k'))
  /\ (configured_level w = PROJECT_LEVEL_API_KEY ->
      forall self p e p' e' r r',
        slash_free p = true -> slash_free p' = true ->
        ApiReq r ∈ issued (EnvironmentsApi.get self p e) w ->
        ApiReq r' ∈ issued (EnvironmentsApi.get self p' e') w ->
        url r = url r' -> p = p' /\ e = e').
Proof.
  split; intros Hl.
  - intros self k k' r r'. split; intros Hin Hin' E.
    + eapply in_issued_one in Hin;
        [|unfold UsersApi.get; guard_passes; run_methods; reflexivity].
      eapply in_issued_one in Hin';
        [|unfold UsersApi.get; guard_passes; run_methods; reflexivity].
      subst r r'. cbn [url] in E.
      apply (inj (String.app _)) in E. now apply (inj (String.app "/")) in E.
    + eapply in_issued_one in Hin;
        [|unfold TenantsApi.get; guard_passes; run_methods; reflexivity].
      eapply in_issued_one in Hin';
        [|unfold TenantsApi.get; guard_passes; run_methods; reflexivity].
      subst r r'. cbn [url] in E.
      apply (inj (String.app _)) in E. now apply (inj (String.app "/")) in E.
  - intros self p e p' e' r r' Hp Hp' Hin Hin' E.
    eapply in_issued_one in Hin;
      [|unfold EnvironmentsApi.get; guard_passes; run_methods; reflexivity].
    eapply in_issued_one in Hin';
      [|unfold EnvironmentsApi.get; guard_passes; run_methods; reflexivity].
    subst r r'. cbn [url] in E.
    apply (inj (String.app _)) in E.
    apply (inj (String.app "/v2/projects/")) in E.
    apply segment_tail_inj in E as [-> E]; [|assumption..].
    apply (inj (String.app "envs/")) in E. now split.
Qed.

Lemma get_url_determines_key_witness : "alice" = "alice".
Proof.
  pose (r := {| method := GET; url := "/v2/facts/proj/dev/users/alice";
                params := None; json := None |}).
  assert (Hin : ApiReq r ∈ issued (@UsersApi.get echo_codec "alice")
                             (sample_world env_context)).
  { rewrite (issued_one _ _ (ApiReq r)); [apply list_elem_of_here | reflexivity]. }
  exact (proj1 (proj1 (@get_url_determines_key echo_codec
                         (sample_world env_context)) eq_refl
                  sample_tenants "alice" "alice" r r) Hin Hin eq_refl).
Defined.
